(** * Karabo-Pipeline: the OSKAR binary reader ([karabo/binary_reader.py])

    A shallow embedding of [PackedBinaryStructure], [FileHeader], [Tag] and
    [OskarBinaryReader], with the properties of the reader proved about the
    embedded functions.

    Conventions of the embedding:
    - a Python [int] is a [Z]; a [bytes] object is a [list byte];
      a [str] is the list of its code points;
    - a call either returns a value or raises: [result];
    - what the interpreter fixes from outside the program text
      ([sys.version_info], [sys.byteorder], [__debug__]) is a [Runtime]. *)

From Stdlib.Strings Require Import String Ascii Byte.
From Stdlib Require Import ZArith List Bool Lia.
From Equations Require Import Equations.
Import ListNotations.

Local Open Scope Z_scope.
Set Warnings "-register-all".

(* ===================================================================== *)
(** ** Python values, exceptions and results                              *)
(* ===================================================================== *)

Inductive PyExn : Type :=
| AssertionError (msg : string)
| UnicodeDecodeError
| StructError
| TypeError
| ValueError.

Inductive PyValue : Type :=
| PyNone
| PyBool (b : bool)
| PyInt (z : Z)
| PyBytes (bs : list byte)
| PyStr (codepoints : list Z)
| PyTuple (items : list PyValue).

Inductive result (A : Type) : Type :=
| Returned (a : A)
| Raised (e : PyExn).
Arguments Returned {A} a.
Arguments Raised {A} e.

Definition bind {A B : Type} (r : result A) (k : A -> result B) : result B :=
  match r with
  | Returned a => k a
  | Raised e => Raised e
  end.

Notation "x <- r ;; k" := (bind r (fun x => k))
  (at level 61, r at next level, right associativity).

Inductive ByteOrder : Type := LittleEndianHost | BigEndianHost.

(** The part of the interpreter state the module reads. *)
Record Runtime : Type := mkRuntime {
  version_info : Z * Z;      (* sys.version_info[0], sys.version_info[1] *)
  byteorder    : ByteOrder;  (* sys.byteorder, used by native struct codes *)
  debug        : bool        (* __debug__: assert statements are executed *)
}.

Definition cpython310 : Runtime := mkRuntime (3, 10) LittleEndianHost true.
Definition cpython38  : Runtime := mkRuntime (3, 8) LittleEndianHost true.

(* ===================================================================== *)
(** ** Bytes                                                              *)
(* ===================================================================== *)

Definition byte_val (b : byte) : Z := Z.of_N (Byte.to_N b).

Definition byte_of_Z (z : Z) : byte :=
  match Byte.of_N (Z.to_N (z mod 256)) with
  | Some b => b
  | None => x00
  end.

(** Python slices with a negative bound, on a sequence of any length:
    [l[:-k]] and [l[-k:]]. *)
Definition slice_upto_neg {A : Type} (k : nat) (l : list A) : list A :=
  firstn (length l - k) l.

Definition slice_from_neg {A : Type} (k : nat) (l : list A) : list A :=
  skipn (length l - k) l.

(** [l[lo:hi]] with non-negative bounds. *)
Definition slice {A : Type} (lo hi : nat) (l : list A) : list A :=
  firstn (hi - lo) (skipn lo l).

(* ===================================================================== *)
(** ** PackedBinaryStructure: population count                            *)
(* ===================================================================== *)

(** [int.bit_count()]: the number of ones in the binary representation of
    the absolute value. *)
Fixpoint pos_bit_count (p : positive) : Z :=
  match p with
  | xH => 1
  | xO q => pos_bit_count q
  | xI q => 1 + pos_bit_count q
  end.

Definition int_bit_count (n : Z) : Z :=
  match n with
  | Z0 => 0
  | Zpos p => pos_bit_count p
  | Zneg p => pos_bit_count p
  end.

Definition fastPopCount (byteInput : Z) : Z := int_bit_count byteInput.

(** The [while (byteInput > 0)] loop of [legacyPopCount], with its two
    variables as arguments. *)
Equations? legacyPopCount_loop (count byteInput : Z) : Z
  by wf (Z.to_nat byteInput) lt :=
  legacyPopCount_loop count byteInput with Z_gt_dec byteInput 0 => {
    | left _ => legacyPopCount_loop (count + Z.land byteInput 1)
                                    (Z.shiftr byteInput 1);
    | right _ => count }.
Proof.
  rewrite Z.shiftr_div_pow2 by lia.
  change (2 ^ 1) with 2.
  apply Z2Nat.inj_lt; try lia.
  - apply Z.div_pos; lia.
  - apply Z.div_lt; lia.
Qed.

Definition legacyPopCount (byteInput : Z) : Z := legacyPopCount_loop 0 byteInput.

Definition popCount (rt : Runtime) (byteInput : Z) : Z :=
  if (fst (version_info rt) >=? 3) && (snd (version_info rt) >=? 10)
  then fastPopCount byteInput
  else legacyPopCount byteInput.

(** The number of bit positions of [n] that hold a one, counted with
    [Z.testbit] over positions [0 .. Z.log2 n]: the reference both
    implementations are compared with. *)
Definition ones_in_binary (n : Z) : Z :=
  Z.of_nat (length (filter (fun i => Z.testbit n (Z.of_nat i))
                           (seq 0 (S (Z.to_nat (Z.log2 n)))))).

(* ===================================================================== *)
(** ** The [struct] module and [ctypes] layouts                           *)
(* ===================================================================== *)

(** Unsigned little-endian value of a block of bytes. *)
Definition le_uint (bs : list byte) : Z :=
  fold_right (fun b acc => byte_val b + 256 * acc) 0 bs.

(** Re-reading an unsigned [bits]-bit pattern as two's complement. *)
Definition as_signed (bits : Z) (u : Z) : Z :=
  if u >=? 2 ^ (bits - 1) then u - 2 ^ bits else u.

(** Format characters of [struct], as far as the reader builds them. *)
Inductive FormatCode : Type :=
| Fmt_s (n : nat)        (* "<n>s": a bytes object of n bytes *)
| Fmt_c                  (* "c" *)
| Fmt_B                  (* "B" *)
| Fmt_i | Fmt_I          (* "i", "I" *)
| Fmt_l | Fmt_L          (* "l", "L" *)
| Fmt_q | Fmt_Q.         (* "q", "Q" *)

(** Standard sizes (those of the byte-order prefix "<"); for the codes
    listed here "i" has the same size in native mode. *)
Definition code_size (c : FormatCode) : nat :=
  match c with
  | Fmt_s n => n
  | Fmt_c | Fmt_B => 1
  | Fmt_i | Fmt_I | Fmt_l | Fmt_L => 4
  | Fmt_q | Fmt_Q => 8
  end%nat.

Definition calcsize (fmt : list FormatCode) : nat :=
  fold_right (fun c n => (code_size c + n)%nat) 0%nat fmt.

Definition read_uint (bo : ByteOrder) (chunk : list byte) : Z :=
  match bo with
  | LittleEndianHost => le_uint chunk
  | BigEndianHost => le_uint (rev chunk)
  end.

Definition unpack_code (bo : ByteOrder) (c : FormatCode) (chunk : list byte)
  : PyValue :=
  match c with
  | Fmt_s _ | Fmt_c => PyBytes chunk
  | Fmt_B | Fmt_I | Fmt_L | Fmt_Q => PyInt (read_uint bo chunk)
  | Fmt_i | Fmt_l => PyInt (as_signed 32 (read_uint bo chunk))
  | Fmt_q => PyInt (as_signed 64 (read_uint bo chunk))
  end.

Fixpoint unpack_fields (bo : ByteOrder) (fmt : list FormatCode)
    (bs : list byte) : list PyValue :=
  match fmt with
  | [] => []
  | c :: fmt' =>
      unpack_code bo c (firstn (code_size c) bs)
        :: unpack_fields bo fmt' (skipn (code_size c) bs)
  end.

(** [struct.unpack(fmt, buffer)]: the buffer must have exactly the size of
    the format, otherwise [struct.error]. *)
Definition struct_unpack (bo : ByteOrder) (fmt : list FormatCode)
    (bs : list byte) : result (list PyValue) :=
  if Nat.eqb (length bs) (calcsize fmt)
  then Returned (unpack_fields bo fmt bs)
  else Raised StructError.

(** The ctypes field types that [FileHeader] and [Tag] use. *)
Inductive CType : Type :=
| c_char | c_uint8 | c_uint32 | c_uint64
| c_array (elem : CType) (len : nat).        (* elem * len *)

(** [f_ctype._type_] on the platform the module targets (LP64: [c_uint64]
    is [c_ulong], whose code is "L"). *)
Definition ctype_type_code (t : CType) : FormatCode :=
  match t with
  | c_char => Fmt_c
  | c_uint8 => Fmt_B
  | c_uint32 => Fmt_I
  | c_uint64 => Fmt_L
  | c_array _ n => Fmt_s n
  end.

(** [getattr(cls, f_name).size]. *)
Fixpoint ctype_size (t : CType) : nat :=
  match t with
  | c_char | c_uint8 => 1
  | c_uint32 => 4
  | c_uint64 => 8
  | c_array e n => n * ctype_size e
  end%nat.

Fixpoint ctype_align (t : CType) : nat :=
  match t with
  | c_char | c_uint8 => 1
  | c_uint32 => 4
  | c_uint64 => 8
  | c_array e _ => ctype_align e
  end%nat.

Definition round_up (off align : nat) : nat :=
  (((off + align - 1) / align) * align)%nat.

(** The end of the last field in the layout ctypes gives to a structure
    that declares no [_pack_]: each field starts at the next multiple of
    its alignment. *)
Fixpoint ctypes_end (off : nat) (fields : list (string * CType)) : nat :=
  match fields with
  | [] => off
  | (_, t) :: rest => ctypes_end (round_up off (ctype_align t) + ctype_size t) rest
  end.

Definition ctypes_sizeof (fields : list (string * CType)) : nat :=
  round_up (ctypes_end 0 fields)
           (fold_right (fun f a => Nat.max (ctype_align (snd f)) a) 1%nat fields).

(** The loop of [create_from_bytes] that builds the format: an array type
    (it has [_length_]) gives "<n>s"; "L" and "l" are widened to "Q" and
    "q" when the field is 8 bytes wide. *)
Definition field_format (f : string * CType) : FormatCode :=
  match snd f with
  | c_array _ n => Fmt_s n
  | t =>
      match ctype_type_code t with
      | Fmt_L => if Nat.eqb (ctype_size t) 8 then Fmt_Q else Fmt_L
      | Fmt_l => if Nat.eqb (ctype_size t) 8 then Fmt_q else Fmt_l
      | c => c
      end
  end.

Definition struct_format (fields : list (string * CType)) : list FormatCode :=
  map field_format fields.

(** [PackedBinaryStructure.create_from_bytes], for a class given by its
    [_fields_] and its constructor (the call of [cls] on the unpacked values). *)
Definition create_from_bytes {T : Type} (fields : list (string * CType))
    (cls : list PyValue -> result T) (byte_str : list byte) : result T :=
  data <- struct_unpack LittleEndianHost (struct_format fields) byte_str ;;
  cls data.

(** A buffer object handed to ctypes: its bytes and whether it is
    read-only ([bytes] is, [bytearray] and [mmap] are not). *)
Record Buffer : Type := mkBuffer {
  buf_readonly : bool;
  buf_data : list byte
}.

(** Reading the fields of a little-endian ctypes structure laid over a
    block of memory. *)
Fixpoint ctypes_read (off : nat) (fields : list (string * CType))
    (mem : list byte) : list PyValue :=
  match fields with
  | [] => []
  | (_, t) :: rest =>
      let o := round_up off (ctype_align t) in
      let chunk := slice o (o + ctype_size t) mem in
      (match t with
       | c_char | c_array _ _ => PyBytes chunk
       | _ => PyInt (le_uint chunk)
       end) :: ctypes_read (o + ctype_size t) rest mem
  end.

(** [cls.from_buffer(source)] of ctypes: [TypeError] for a read-only
    source, [ValueError] when the source is smaller than the structure. *)
Definition from_buffer {T : Type} (fields : list (string * CType))
    (cls : list PyValue -> result T) (source : Buffer) : result T :=
  if buf_readonly source then Raised TypeError
  else if Nat.ltb (length (buf_data source)) (ctypes_sizeof fields)
       then Raised ValueError
       else cls (ctypes_read 0 fields (buf_data source)).

(** The value a ctypes array of [c_char] holds once bytes are stored in
    it: the bytes before the first NUL, the rest being dropped. *)
Fixpoint c_char_array_value (bs : list byte) : list byte :=
  match bs with
  | [] => []
  | b :: rest => if Byte.eqb b x00 then [] else b :: c_char_array_value rest
  end.

(* ===================================================================== *)
(** ** FileHeader                                                         *)
(* ===================================================================== *)

Module FileHeader.

Definition _fields_ : list (string * CType) :=
  [ ("desc", c_array c_char 9);
    ("ver", c_uint8);
    ("littleEndinan", c_uint8);
    ("voidptrSize", c_uint8);
    ("intSize", c_uint8);
    ("longSize", c_uint8);
    ("floatSize", c_uint8);
    ("doubleSize", c_uint8);
    ("oskarVersion", c_uint32);
    ("reserved0", c_uint64);
    ("reserved1", c_uint64);
    ("reserved2", c_uint64);
    ("reserved3", c_uint64);
    ("reserved4", c_uint64);
    ("reserved5", c_uint32) ]%string.

Record t : Type := mk {
  desc : list byte;
  ver : Z;
  littleEndinan : Z;
  voidptrSize : Z;
  intSize : Z;
  longSize : Z;
  floatSize : Z;
  doubleSize : Z;
  oskarVersion : Z;
  reserved0 : Z;
  reserved1 : Z;
  reserved2 : Z;
  reserved3 : Z;
  reserved4 : Z;
  reserved5 : Z
}.

(** The constructor call on the unpacked values: positional
    initialisation of the fields, [desc] keeping the bytes before the
    first NUL as a [c_char] array does; values of another shape are a
    [TypeError]. *)
Definition cls (data : list PyValue) : result t :=
  match data with
  | [PyBytes d; PyInt v; PyInt le; PyInt vp; PyInt i; PyInt l; PyInt f;
     PyInt db; PyInt ov; PyInt r0; PyInt r1; PyInt r2; PyInt r3; PyInt r4;
     PyInt r5] =>
      Returned (mk (c_char_array_value d) v le vp i l f db ov r0 r1 r2 r3 r4 r5)
  | _ => Raised TypeError
  end.

Definition create_from_bytes (byte_str : list byte) : result t :=
  create_from_bytes _fields_ cls byte_str.

Definition from_buffer (source : Buffer) : result t :=
  from_buffer _fields_ cls source.

(** The 44 reserved bytes of the header block, offsets 20 to 63. *)
Definition reserved_bytes (block : list byte) : list byte := slice 20 64 block.

End FileHeader.

(* ===================================================================== *)
(** ** Tag                                                                *)
(* ===================================================================== *)

Module Tag.

Definition _fields_ : list (string * CType) :=
  [ ("t", c_char);
    ("AorB", c_char);
    ("g", c_char);
    ("payloadElementSize", c_uint8);
    ("chunkFlags", c_uint8);
    ("payloadDataType", c_uint8);
    ("groupID", c_uint8);
    ("tagID", c_uint8);
    ("userIdx", c_uint32);
    ("payloadSize", c_uint64) ]%string.

Record t : Type := mk {
  t_ : list byte;
  AorB : list byte;
  g : list byte;
  payloadElementSize : Z;
  chunkFlags : Z;
  payloadDataType : Z;
  groupID : Z;
  tagID : Z;
  userIdx : Z;
  payloadSize : Z
}.

Definition cls (data : list PyValue) : result t :=
  match data with
  | [PyBytes c0; PyBytes c1; PyBytes c2; PyInt pes; PyInt cf; PyInt pdt;
     PyInt gid; PyInt tid; PyInt ui; PyInt ps] =>
      Returned (mk c0 c1 c2 pes cf pdt gid tid ui ps)
  | _ => Raised TypeError
  end.

Definition create_from_bytes (byte_str : list byte) : result t :=
  create_from_bytes _fields_ cls byte_str.

(** The three flag accessors return the masked integer, not a bool. *)
Definition isPayloadBigEndian (self : t) : Z := Z.land (chunkFlags self) 0x10.
Definition usesCRC32CEncoding (self : t) : Z := Z.land (chunkFlags self) 0x40.
Definition isTagExtended (self : t) : Z := Z.land (chunkFlags self) 0x80.

Definition isCharType (self : t) : bool :=
  negb (Z.land (payloadDataType self) 0x01 =? 0).
Definition isIntType (self : t) : bool :=
  negb (Z.land (payloadDataType self) 0x02 =? 0).
Definition isFloatType (self : t) : bool :=
  negb (Z.land (payloadDataType self) 0x04 =? 0).
Definition isDoubleType (self : t) : bool :=
  negb (Z.land (payloadDataType self) 0x08 =? 0).

Definition isSane (rt : Runtime) (self : t) : bool :=
  (Z.land (payloadDataType self) 0x90 =? 0)
  && (popCount rt (Z.land (payloadDataType self) 0x0F) =? 1).

Definition isMatrix (self : t) : Z := Z.land (payloadDataType self) 0x40.
Definition isComplex (self : t) : Z := Z.land (payloadDataType self) 0x20.

(** Truth value of an [int] in an [if]. *)
Definition truthy (z : Z) : bool := negb (z =? 0).

Definition printPayloadDataType (rt : Runtime) (self : t) : result string :=
  if negb (isSane rt self) && debug rt then
    Raised (AssertionError "Typedescription bits that should be 0 are not")
  else (
    let txtDescription := "" in
    let txtDescription :=
      if isCharType self then txtDescription ++ "1 byte char type "
      else if isIntType self then txtDescription ++ "4 byte integer type "
      else if isFloatType self then txtDescription ++ "4 byte float type "
      else if isDoubleType self then txtDescription ++ "8 byte double type "
      else txtDescription in
    let txtDescription :=
      if truthy (isComplex self)
      then txtDescription ++ "complex data, first real, than imaginary "
      else txtDescription in
    let txtDescription :=
      if truthy (isMatrix self)
      then txtDescription ++ "2x2 matrix data, [ab, cd] "
      else txtDescription in
    Returned txtDescription)%string.

End Tag.

(* ===================================================================== *)
(** ** The built-in UTF-8 codec                                           *)
(* ===================================================================== *)

Definition byte_in (lo hi : Z) (b : byte) : bool :=
  (lo <=? byte_val b) && (byte_val b <=? hi).

Definition is_continuation (b : byte) : bool := byte_in 0x80 0xBF b.

(** Strict decoding, as [str(payload, "utf-8")] does it: shortest forms
    only, no surrogates, nothing above U+10FFFF; [None] stands for the
    codec's failure. *)
Fixpoint utf8_decode (bs : list byte) : option (list Z) :=
  match bs with
  | [] => Some []
  | b0 :: r0 =>
      let v0 := byte_val b0 in
      if v0 <? 0x80 then option_map (cons v0) (utf8_decode r0)
      else if byte_in 0xC2 0xDF b0 then
        match r0 with
        | b1 :: r1 =>
            if is_continuation b1
            then option_map (cons ((v0 - 0xC0) * 64 + (byte_val b1 - 0x80)))
                            (utf8_decode r1)
            else None
        | _ => None
        end
      else if byte_in 0xE0 0xEF b0 then
        match r0 with
        | b1 :: b2 :: r2 =>
            if byte_in (if v0 =? 0xE0 then 0xA0 else 0x80)
                       (if v0 =? 0xED then 0x9F else 0xBF) b1
               && is_continuation b2
            then option_map
                   (cons ((v0 - 0xE0) * 4096 + (byte_val b1 - 0x80) * 64
                          + (byte_val b2 - 0x80)))
                   (utf8_decode r2)
            else None
        | _ => None
        end
      else if byte_in 0xF0 0xF4 b0 then
        match r0 with
        | b1 :: b2 :: b3 :: r3 =>
            if byte_in (if v0 =? 0xF0 then 0x90 else 0x80)
                       (if v0 =? 0xF4 then 0x8F else 0xBF) b1
               && is_continuation b2 && is_continuation b3
            then option_map
                   (cons ((v0 - 0xF0) * 262144 + (byte_val b1 - 0x80) * 4096
                          + (byte_val b2 - 0x80) * 64 + (byte_val b3 - 0x80)))
                   (utf8_decode r3)
            else None
        | _ => None
        end
      else None
  end.

(** Unicode scalar values: the code points a text can hold. *)
Definition is_scalar (cp : Z) : Prop :=
  0 <= cp <= 0x10FFFF /\ ~ (0xD800 <= cp <= 0xDFFF).

(** The UTF-8 encoding of a code point and of a text; a byte block is
    valid UTF-8 when it is the encoding of some text. *)
Definition utf8_encode_cp (cp : Z) : list byte :=
  if cp <? 0x80 then [byte_of_Z cp]
  else if cp <? 0x800 then
    [byte_of_Z (0xC0 + cp / 64); byte_of_Z (0x80 + cp mod 64)]
  else if cp <? 0x10000 then
    [byte_of_Z (0xE0 + cp / 4096); byte_of_Z (0x80 + (cp / 64) mod 64);
     byte_of_Z (0x80 + cp mod 64)]
  else
    [byte_of_Z (0xF0 + cp / 262144); byte_of_Z (0x80 + (cp / 4096) mod 64);
     byte_of_Z (0x80 + (cp / 64) mod 64); byte_of_Z (0x80 + cp mod 64)].

Definition utf8_encode (text : list Z) : list byte :=
  flat_map utf8_encode_cp text.

Definition valid_utf8 (bs : list byte) : Prop :=
  exists text, Forall is_scalar text /\ bs = utf8_encode text.

(* ===================================================================== *)
(** ** The [crc32c] package                                               *)
(* ===================================================================== *)

(** Modelled from the spec: the reflected form of the Castagnoli
    polynomial, the constant of the third-party [crc32c] package, whose
    code is not part of the repository sources. *)
Definition crc32c_poly : Z := 0x82F63B78.

(** Modelled from the spec: one bit of the CRC-32C register of the
    [crc32c] package, least significant bit first. *)
Definition crc32c_shift (crc : Z) : Z :=
  if Z.testbit crc 0
  then Z.lxor (Z.shiftr crc 1) crc32c_poly
  else Z.shiftr crc 1.

(** Modelled from the spec: one byte of input taken into the register of
    the [crc32c] package. *)
Definition crc32c_byte (crc : Z) (b : byte) : Z :=
  Nat.iter 8 crc32c_shift (Z.lxor crc (byte_val b)).

(** Modelled from the spec: [crc32c.crc32c(data, value)] of the [crc32c]
    package, the standard CRC-32C continued from the running value: the
    register starts from the complement of [value] and is complemented on
    return. *)
Definition crc32c_value (data : list byte) (value : Z) : Z :=
  Z.lxor (fold_left crc32c_byte data (Z.lxor value 0xFFFFFFFF)) 0xFFFFFFFF.

(** Modelled from the spec: [crc32c.crc32c(data)] of the third-party
    [crc32c] package, whose code is not part of the repository sources:
    the standard CRC-32C (Castagnoli polynomial) with the initial running
    value 0 and no further XOR applied by the caller. *)
Definition crc32c (data : list byte) : Z := crc32c_value data 0.

(* ===================================================================== *)
(** ** OskarBinaryReader                                                  *)
(* ===================================================================== *)

Module OskarBinaryReader.

Definition HEADER_SIZE : nat := 64.
Definition TAG_SIZE : nat := 20.

Definition interpreteString (payload : list byte) : result PyValue :=
  match utf8_decode payload with
  | Some text => Returned (PyStr text)
  | None => Raised UnicodeDecodeError
  end.

(** The body is [pass]: the call returns [None] whatever it is given. *)
Definition interpreteNumbers (payload : list byte) (isMatrix isComplex : Z)
  : result PyValue :=
  Returned PyNone.

(** [struct.unpack("i", payload[-4:])[0]]: a signed 32-bit integer in
    the byte order of the host. *)
Definition _readCRCFromData (rt : Runtime) (payload : list byte) : result Z :=
  let crcBytes := slice_from_neg 4 payload in
  vs <- struct_unpack (byteorder rt) [Fmt_i] crcBytes ;;
  match vs with
  | PyInt z :: _ => Returned z
  | _ => Raised TypeError
  end.

Definition checkCRC (rt : Runtime) (hasCRC : bool)
    (rawTag rawPayload : list byte) : result PyValue :=
  if negb hasCRC then Returned (PyBool true)
  else
    let data := rawTag ++ rawPayload in
    let rawPayload := slice_upto_neg 4 rawPayload in
    let calculatedCRC := crc32c (slice_upto_neg 4 data) in
    readCRC <- _readCRCFromData rt data ;;
    Returned (PyTuple [PyBool (readCRC =? calculatedCRC); PyBytes rawPayload]).

Definition interpretePayloadData (payload : list byte) (tag : Tag.t)
  : result PyValue :=
  if Tag.isCharType tag then interpreteString payload
  else interpreteNumbers payload (Tag.isMatrix tag) (Tag.isComplex tag).

(** [buff[lo:hi]] on an [mmap]: a new, read-only [bytes] object. *)
Definition mmap_slice (buff : list byte) (lo hi : nat) : Buffer :=
  mkBuffer true (slice lo hi buff).

(** [readBinaryFile] on an existing file with the given content.
    [mmap.mmap(f.fileno(), 0, ...)] refuses an empty file with a
    [ValueError]; the header is then built over the first 64 bytes and
    bound to [header1]; nothing else follows, so the call returns
    [None]. *)
Definition readBinaryFile (content : list byte) : result PyValue :=
  buff <- (if Nat.eqb (length content) 0
           then Raised ValueError else Returned content) ;;
  header1 <- FileHeader.from_buffer (mmap_slice buff 0 HEADER_SIZE) ;;
  Returned PyNone.

End OskarBinaryReader.

(* ===================================================================== *)
(** ** Reference predicates and sample data                               *)
(* ===================================================================== *)

(** [isSane] with the population count replaced by [int_bit_count], which
    evaluates on its own. *)
Definition sane_byte (b : Z) : bool :=
  (Z.land b 0x90 =? 0) && (int_bit_count (Z.land b 0x0F) =? 1).

Definition one_base_bit (b : Z) : bool :=
  Nat.eqb (length (filter (Z.testbit b) [0; 1; 2; 3])) 1
  && negb (Z.testbit b 4) && negb (Z.testbit b 7).


(** The bytes of an ASCII literal. *)
Definition ascii_bytes (s : string) : list byte := list_byte_of_string s.

(** A tag block: "TBG", element size 1, CRC flag set, char payload,
    group 1, tag 2, user index 0, payload size 9. *)
Definition sample_tag : list byte :=
  ascii_bytes "TBG"
  ++ map byte_of_Z [1; 0x40; 0x01; 1; 2; 0; 0; 0; 0; 9; 0; 0; 0; 0; 0; 0; 0].

(** The same tag with a payload size of 5, for a record with no trailer. *)
Definition sample_tag_plain : list byte :=
  ascii_bytes "TBG"
  ++ map byte_of_Z [1; 0x00; 0x01; 1; 2; 0; 0; 0; 0; 5; 0; 0; 0; 0; 0; 0; 0].

(** A header block: "OSKARBIN" and a NUL, version 2, little endian,
    sizes 8, 4, 8, 4, 8, application version 0x00020001, 44 zero bytes. *)
Definition sample_header : list byte :=
  ascii_bytes "OSKARBIN"
  ++ map byte_of_Z [0; 2; 1; 8; 4; 8; 4; 8; 0x01; 0x00; 0x02; 0x00]
  ++ repeat x00 44.


(** Payloads for [sample_tag]: "abcde" followed by its CRC32C trailer,
    the same with the last trailer byte changed, and "abcdg" followed by
    its trailer, whose value is above 2^31. *)
Definition payload_abcde : list byte :=
  ascii_bytes "abcde" ++ map byte_of_Z [0xFF; 0x40; 0xDF; 0x64].

Definition payload_abcde_flipped : list byte :=
  ascii_bytes "abcde" ++ map byte_of_Z [0xFF; 0x40; 0xDF; 0x65].

Definition payload_abcdg : list byte :=
  ascii_bytes "abcdg" ++ map byte_of_Z [0x08; 0x30; 0xE4; 0x85].


(** Tags by their type descriptor, every other field as in [sample_tag]. *)
Definition tag_of_type (payloadDataType : Z) : Tag.t :=
  Tag.mk (ascii_bytes "T") (ascii_bytes "B") (ascii_bytes "G")
         1 0 payloadDataType 1 2 0 0.


(** A 64-byte block that is no header: every byte is 0xFF. *)
Definition block_ff : list byte := repeat xff 64.

(** A file of one record without trailer: the sample header, the plain
    sample tag and the five bytes it announces. *)
Definition one_record_file : list byte :=
  sample_header ++ sample_tag_plain ++ ascii_bytes "abcde".


(** The [n] bytes of the unsigned little-endian form of [z], as a writer
    of the format lays a trailer or a field down. *)
Fixpoint le_bytes (n : nat) (z : Z) : list byte :=
  match n with
  | O => []
  | S k => byte_of_Z z :: le_bytes k (z / 256)
  end.


(** The four base-type tests of [Tag] on a descriptor value. *)
Definition base_flags (m : Z) : list bool :=
  [negb (Z.land m 0x01 =? 0); negb (Z.land m 0x02 =? 0);
   negb (Z.land m 0x04 =? 0); negb (Z.land m 0x08 =? 0)].





(** A text outside ASCII and its UTF-8 form: the euro sign and "A". *)
Definition text_euro : list Z := [0x20AC; 0x41].
Definition payload_euro : list byte := map byte_of_Z [0xE2; 0x82; 0xAC; 0x41].


(** The assignment of a value to two targets, [a, b = v], by which the
    call in [readBinaryFile] (commented out in the source) takes the
    result of [checkCRC] apart into flag and payload: a sequence of two
    items is split, a sequence of another length is a [ValueError], a
    value that cannot be iterated is a [TypeError]. *)
Definition unpack_two (v : PyValue) : result (PyValue * PyValue) :=
  match v with
  | PyTuple [a; b] => Returned (a, b)
  | PyTuple _ => Raised ValueError
  | PyBytes [x; y] => Returned (PyInt (byte_val x), PyInt (byte_val y))
  | PyBytes _ => Raised ValueError
  | PyStr [c; d] => Returned (PyStr [c], PyStr [d])
  | PyStr _ => Raised ValueError
  | PyNone | PyBool _ | PyInt _ => Raised TypeError
  end.

(* ===================================================================== *)
(** * Properties                                                          *)
(* ===================================================================== *)

(** ** Proof steps used throughout *)

Ltac bools_to_props :=
  repeat match goal with
  | H : (_ && _) = true |- _ => apply andb_true_iff in H; destruct H
  | H : (_ <=? _) = true |- _ => apply Z.leb_le in H
  | H : (_ <? _) = true |- _ => apply Z.ltb_lt in H
  | H : (_ <? _) = false |- _ => apply Z.ltb_ge in H
  | H : (_ =? _) = true |- _ => apply Z.eqb_eq in H
  | H : (_ =? _) = false |- _ => apply Z.eqb_neq in H
  end.

Ltac divmod_lia := Z.div_mod_to_equations; lia.

(** ** Population count *)

Lemma int_bit_count_step (n : Z) :
  0 < n -> int_bit_count n = Z.land n 1 + int_bit_count (Z.shiftr n 1).
Proof.
  destruct n as [|p|p]; try lia.
  intros _. destruct p as [q|q|]; reflexivity.
Qed.

Lemma legacyPopCount_loop_spec (count n : Z) :
  0 <= n -> legacyPopCount_loop count n = count + int_bit_count n.
Proof.
  funelim (legacyPopCount_loop count n); intros Hn.
  - match goal with
    | IH : 0 <= _ -> legacyPopCount_loop _ _ = _ + int_bit_count _ |- _ =>
        rewrite IH by (apply Z.shiftr_nonneg; lia)
    end.
    rewrite (int_bit_count_step byteInput) by lia. lia.
  - assert (byteInput = 0) by lia. subst. cbn. lia.
Qed.

Lemma legacyPopCount_bit_count (n : Z) :
  0 <= n -> legacyPopCount n = int_bit_count n.
Proof.
  intros Hn. unfold legacyPopCount. rewrite legacyPopCount_loop_spec by assumption.
  lia.
Qed.

Lemma popCount_bit_count (rt : Runtime) (n : Z) :
  0 <= n -> popCount rt n = int_bit_count n.
Proof.
  intros Hn. unfold popCount.
  destruct (_ && _); [reflexivity | now apply legacyPopCount_bit_count].
Qed.

Lemma filter_map_length {A B : Type} (f : B -> bool) (g : A -> B) (l : list A) :
  length (filter f (map g l)) = length (filter (fun x => f (g x)) l).
Proof.
  induction l as [|x l IH]; cbn; [reflexivity|].
  destruct (f (g x)); cbn; rewrite IH; reflexivity.
Qed.

Lemma ones_in_binary_double (a : Z) (b : bool) :
  0 < a -> ones_in_binary (2 * a + Z.b2z b) = Z.b2z b + ones_in_binary a.
Proof.
  intros Ha. unfold ones_in_binary.
  assert (Hlog : Z.log2 (2 * a + Z.b2z b) = Z.succ (Z.log2 a)).
  { destruct b; cbn [Z.b2z].
    - apply Z.log2_succ_double; assumption.
    - rewrite Z.add_0_r. apply Z.log2_double; assumption. }
  rewrite Hlog, Z2Nat.inj_succ by apply Z.log2_nonneg.
  set (k := Z.to_nat (Z.log2 a)).
  change (seq 0 (S (S k))) with (0%nat :: seq 1 (S k)).
  rewrite <- seq_shift. cbn [filter].
  change (Z.of_nat 0) with 0. rewrite Z.testbit_0_r.
  assert (Hrest : length (filter (fun i => Z.testbit (2 * a + Z.b2z b) (Z.of_nat i))
                                 (map S (seq 0 (S k))))
                  = length (filter (fun i => Z.testbit a (Z.of_nat i)) (seq 0 (S k)))).
  { rewrite filter_map_length. f_equal. apply filter_ext. intros i.
    rewrite Nat2Z.inj_succ. apply Z.testbit_succ_r. lia. }
  destruct b; cbn [Z.b2z length] in *; rewrite Hrest; lia.
Qed.

Lemma pos_bit_count_ones (p : positive) :
  pos_bit_count p = ones_in_binary (Zpos p).
Proof.
  induction p as [q IH|q IH|].
  - change (Zpos q~1) with (2 * Zpos q + Z.b2z true).
    rewrite ones_in_binary_double by lia. cbn [pos_bit_count Z.b2z]. lia.
  - change (Zpos q~0) with (2 * Zpos q + Z.b2z false).
    rewrite ones_in_binary_double by lia. cbn [pos_bit_count Z.b2z]. lia.
  - reflexivity.
Qed.

Lemma int_bit_count_ones (n : Z) : 0 <= n -> int_bit_count n = ones_in_binary n.
Proof.
  destruct n as [|p|p]; try lia; intros _.
  - reflexivity.
  - apply pos_bit_count_ones.
Qed.

(** C10. For every non-negative integer [n] the two implementations of
    the population count agree, both give the number of one bits in the
    binary representation of [n], and so does [popCount] whichever branch
    the interpreter version selects. *)
Theorem popCount_implementations_agree (n : Z) :
  0 <= n ->
  fastPopCount n = legacyPopCount n
  /\ fastPopCount n = ones_in_binary n
  /\ legacyPopCount n = ones_in_binary n
  /\ forall rt, popCount rt n = ones_in_binary n.
Proof.
  intros Hn.
  pose proof (legacyPopCount_bit_count n Hn) as Hl.
  pose proof (int_bit_count_ones n Hn) as Ho.
  unfold fastPopCount. repeat split; try congruence.
  intros rt. rewrite popCount_bit_count by assumption. exact Ho.
Qed.

Lemma popCount_implementations_agree_witness :
  fastPopCount 11 = legacyPopCount 11
  /\ fastPopCount 11 = ones_in_binary 11
  /\ legacyPopCount 11 = ones_in_binary 11
  /\ forall rt, popCount rt 11 = ones_in_binary 11.
Proof. apply (popCount_implementations_agree 11). lia. Defined.

(** Outside the non-negative integers the two differ: the loop never
    runs on a negative number. *)
Example popCount_negative_differs :
  fastPopCount (-1) = 1 /\ legacyPopCount (-1) = 0.
Proof. split; reflexivity. Qed.

(** ** The sanity predicate of the type descriptor *)

(** A check that holds on each of the 256 byte values holds on every
    integer of the byte range. *)
Lemma forall_byte_values (P : Z -> bool) :
  forallb P (map Z.of_nat (seq 0 256)) = true ->
  forall b, 0 <= b < 256 -> P b = true.
Proof.
  intros Hall b Hb. rewrite forallb_forall in Hall. apply Hall.
  apply in_map_iff. exists (Z.to_nat b). split; [lia|].
  apply in_seq. lia.
Qed.

Lemma isSane_sane_byte (rt : Runtime) (tag : Tag.t) :
  Tag.isSane rt tag = sane_byte (Tag.payloadDataType tag).
Proof.
  unfold Tag.isSane, sane_byte.
  rewrite popCount_bit_count; [reflexivity|].
  apply Z.land_nonneg. right. lia.
Qed.

Lemma sane_byte_one_base_bit (b : Z) :
  0 <= b < 256 -> sane_byte b = one_base_bit b.
Proof.
  intros Hb. apply eqb_prop.
  apply (forall_byte_values (fun x => eqb (sane_byte x) (one_base_bit x)));
    [vm_compute; reflexivity | exact Hb].
Qed.

(** C3. For every byte value [b], [isSane] on a tag whose
    [payloadDataType] is [b] holds exactly when one and only one of the
    bits 0, 1, 2, 3 of [b] is set and the bits 4 and 7 are clear. *)
Theorem isSane_iff_one_base_bit (rt : Runtime) (tag : Tag.t) (b : Z) :
  0 <= b < 256 ->
  Tag.payloadDataType tag = b ->
  Tag.isSane rt tag = true
  <-> (length (filter (Z.testbit b) [0; 1; 2; 3]) = 1%nat
       /\ Z.testbit b 4 = false /\ Z.testbit b 7 = false).
Proof.
  intros Hb Hpdt.
  rewrite isSane_sane_byte, Hpdt, (sane_byte_one_base_bit b Hb).
  unfold one_base_bit.
  rewrite !andb_true_iff, !negb_true_iff, Nat.eqb_eq. tauto.
Qed.

Lemma isSane_iff_one_base_bit_witness :
  Tag.isSane cpython38 (Tag.mk [] [] [] 8 0 0x48 0 0 0 0) = true
  <-> (length (filter (Z.testbit 0x48) [0; 1; 2; 3]) = 1%nat
       /\ Z.testbit 0x48 4 = false /\ Z.testbit 0x48 7 = false).
Proof.
  apply (isSane_iff_one_base_bit cpython38 (Tag.mk [] [] [] 8 0 0x48 0 0 0 0) 0x48).
  - lia.
  - reflexivity.
Defined.

(** The sane descriptors are the four base types, each alone or with the
    complex and matrix modifiers. *)
Example sane_values :
  filter sane_byte (map Z.of_nat (seq 0 256))
  = [0x01; 0x02; 0x04; 0x08; 0x21; 0x22; 0x24; 0x28;
     0x41; 0x42; 0x44; 0x48; 0x61; 0x62; 0x64; 0x68].
Proof. vm_compute. reflexivity. Qed.

(** ** Bytes and slices *)

Lemma byte_val_range (b : byte) : 0 <= byte_val b < 256.
Proof.
  unfold byte_val. pose proof (Byte.to_N_bounded b) as H. lia.
Qed.

Lemma byte_of_Z_val (b : byte) : byte_of_Z (byte_val b) = b.
Proof.
  unfold byte_of_Z. pose proof (byte_val_range b) as H.
  rewrite Z.mod_small by lia. unfold byte_val.
  rewrite N2Z.id, Byte.of_to_N. reflexivity.
Qed.

Lemma byte_val_of_Z (z : Z) : 0 <= z < 256 -> byte_val (byte_of_Z z) = z.
Proof.
  intros Hz. unfold byte_of_Z. rewrite Z.mod_small by lia.
  destruct (Byte.of_N (Z.to_N z)) as [b|] eqn:E.
  - apply Byte.to_of_N in E. unfold byte_val. rewrite E. lia.
  - pose proof (Byte.to_of_N_option_map (Z.to_N z)) as H.
    rewrite E in H. cbn in H.
    destruct (N.leb_spec (Z.to_N z) 255); [discriminate | lia].
Qed.

Lemma byte_val_inj (a b : byte) : byte_val a = byte_val b -> a = b.
Proof.
  intros H. rewrite <- (byte_of_Z_val a), <- (byte_of_Z_val b), H. reflexivity.
Qed.

Lemma slice_upto_neg_app {A : Type} (k : nat) (l1 l2 : list A) :
  (k <= length l2)%nat ->
  slice_upto_neg k (l1 ++ l2) = l1 ++ slice_upto_neg k l2.
Proof.
  intros Hk. unfold slice_upto_neg. rewrite length_app.
  replace (length l1 + length l2 - k)%nat
    with (length l1 + (length l2 - k))%nat by lia.
  apply firstn_app_2.
Qed.

Lemma slice_from_neg_app {A : Type} (k : nat) (l1 l2 : list A) :
  (k <= length l2)%nat ->
  slice_from_neg k (l1 ++ l2) = slice_from_neg k l2.
Proof.
  intros Hk. unfold slice_from_neg. rewrite length_app, skipn_app.
  rewrite skipn_all2 by lia. cbn [app]. f_equal. lia.
Qed.

Lemma slice_from_neg_length {A : Type} (k : nat) (l : list A) :
  (k <= length l)%nat -> length (slice_from_neg k l) = k.
Proof. intros Hk. unfold slice_from_neg. rewrite length_skipn. lia. Qed.

Lemma slice_neg_app {A : Type} (k : nat) (l : list A) :
  slice_upto_neg k l ++ slice_from_neg k l = l.
Proof. apply firstn_skipn. Qed.

Lemma le_uint_range (bs : list byte) :
  0 <= le_uint bs < 256 ^ Z.of_nat (length bs).
Proof.
  induction bs as [|b bs IH].
  - cbn. lia.
  - cbn [le_uint fold_right length]. fold (le_uint bs).
    rewrite Nat2Z.inj_succ, Z.pow_succ_r by lia.
    pose proof (byte_val_range b). lia.
Qed.

(** ** The checksum stays within 32 bits *)

Lemma lxor_range (n a b : Z) :
  0 <= n -> 0 <= a < 2 ^ n -> 0 <= b < 2 ^ n -> 0 <= Z.lxor a b < 2 ^ n.
Proof.
  intros Hn Ha Hb.
  assert (Hnn : 0 <= Z.lxor a b) by (apply Z.lxor_nonneg; lia).
  split; [assumption|].
  destruct (Z.eq_dec (Z.lxor a b) 0) as [E|E]; [rewrite E; lia|].
  apply Z.log2_lt_pow2; [lia|].
  pose proof (Z.log2_lxor a b ltac:(lia) ltac:(lia)) as Hl.
  assert (Hla : Z.log2 a < n).
  { destruct (Z.eq_dec a 0) as [->|]; [|apply Z.log2_lt_pow2; lia].
    cbn. destruct (Z.eq_dec n 0) as [->|]; [|lia].
    exfalso. apply E. assert (b = 0) by (cbn in Hb; lia). subst. reflexivity. }
  assert (Hlb : Z.log2 b < n).
  { destruct (Z.eq_dec b 0) as [->|]; [|apply Z.log2_lt_pow2; lia].
    cbn. destruct (Z.eq_dec n 0) as [->|]; [|lia].
    exfalso. apply E. assert (a = 0) by (cbn in Ha; lia). subst. reflexivity. }
  lia.
Qed.

Lemma crc32c_shift_range (crc : Z) :
  0 <= crc < 2 ^ 32 -> 0 <= crc32c_shift crc < 2 ^ 32.
Proof.
  intros Hc. unfold crc32c_shift.
  assert (Hs : 0 <= Z.shiftr crc 1 < 2 ^ 32).
  { rewrite Z.shiftr_div_pow2 by lia. change (2 ^ 1) with 2. divmod_lia. }
  destruct (Z.testbit crc 0); [|assumption].
  apply lxor_range; [lia | assumption | unfold crc32c_poly; lia].
Qed.

Lemma crc32c_byte_range (crc : Z) (b : byte) :
  0 <= crc < 2 ^ 32 -> 0 <= crc32c_byte crc b < 2 ^ 32.
Proof.
  intros Hc. unfold crc32c_byte.
  assert (H0 : 0 <= Z.lxor crc (byte_val b) < 2 ^ 32).
  { apply lxor_range; [lia | assumption | pose proof (byte_val_range b); lia]. }
  generalize dependent (Z.lxor crc (byte_val b)). intros x Hx.
  do 8 (cbn [Nat.iter nat_rect]; apply crc32c_shift_range). exact Hx.
Qed.

Lemma crc32c_range (data : list byte) : 0 <= crc32c data < 2 ^ 32.
Proof.
  unfold crc32c, crc32c_value.
  assert (H : forall crc, 0 <= crc < 2 ^ 32 ->
                0 <= fold_left crc32c_byte data crc < 2 ^ 32).
  { induction data as [|b data IH]; intros crc Hc; [exact Hc|].
    cbn [fold_left]. apply IH, crc32c_byte_range, Hc. }
  apply lxor_range; [lia | apply H; cbn; lia | lia].
Qed.

(** ** The integrity checker *)

Lemma struct_unpack_i (bo : ByteOrder) (bs : list byte) :
  length bs = 4%nat ->
  struct_unpack bo [Fmt_i] bs = Returned [PyInt (as_signed 32 (read_uint bo bs))].
Proof.
  intros Hlen. unfold struct_unpack. rewrite Hlen.
  change (Nat.eqb 4 (calcsize [Fmt_i])) with true.
  cbn [unpack_fields unpack_code code_size].
  rewrite firstn_all2 by lia. reflexivity.
Qed.

Lemma readCRCFromData_little (rt : Runtime) (data : list byte) :
  byteorder rt = LittleEndianHost ->
  (4 <= length data)%nat ->
  OskarBinaryReader._readCRCFromData rt data
  = Returned (as_signed 32 (le_uint (slice_from_neg 4 data))).
Proof.
  intros Hbo Hlen. unfold OskarBinaryReader._readCRCFromData.
  rewrite struct_unpack_i by (apply slice_from_neg_length; assumption).
  rewrite Hbo. reflexivity.
Qed.

Lemma as_signed_small (u : Z) : 0 <= u < 2 ^ 31 -> as_signed 32 u = u.
Proof.
  intros Hu. unfold as_signed. change (32 - 1) with 31.
  destruct (Z.geb_spec u (2 ^ 31)); lia.
Qed.

Lemma as_signed_large (u : Z) : 2 ^ 31 <= u < 2 ^ 32 -> as_signed 32 u = u - 2 ^ 32.
Proof.
  intros Hu. unfold as_signed. change (32 - 1) with 31.
  destruct (Z.geb_spec u (2 ^ 31)); lia.
Qed.

(** Shape of the result with a checksum: never an exception, always the
    pair of the comparison and the payload without its last four bytes. *)
Lemma checkCRC_with_crc_result (rt : Runtime) (rawTag rawPayload : list byte) :
  byteorder rt = LittleEndianHost ->
  (4 <= length rawPayload)%nat ->
  OskarBinaryReader.checkCRC rt true rawTag rawPayload
  = Returned (PyTuple
      [PyBool (as_signed 32 (le_uint (slice_from_neg 4 rawPayload))
               =? crc32c (rawTag ++ slice_upto_neg 4 rawPayload));
       PyBytes (slice_upto_neg 4 rawPayload)]).
Proof.
  intros Hbo Hlen. unfold OskarBinaryReader.checkCRC. cbn [negb].
  rewrite readCRCFromData_little by (rewrite ?length_app; lia || assumption).
  cbn [bind]. rewrite slice_from_neg_app, slice_upto_neg_app by assumption.
  reflexivity.
Qed.

(** C1 (amended). For every version of at least 2, every tag block and
    every payload of at least 4 bytes, on a little-endian host, the check
    does not raise: it returns the pair of a flag and the payload without
    its last 4 bytes, the CRC32C being taken over the tag bytes followed
    by that shortened payload; when the little-endian unsigned word stored
    in the last 4 bytes is below 2^31, the flag is true exactly when the
    stored word equals the computed CRC32C. *)
Theorem checkCRC_returns_flag_and_payload
    (rt : Runtime) (ver : Z) (rawTag rawPayload : list byte) :
  2 <= ver ->
  byteorder rt = LittleEndianHost ->
  (4 <= length rawPayload)%nat ->
  exists ok : bool,
    OskarBinaryReader.checkCRC rt (ver >=? 2) rawTag rawPayload
    = Returned (PyTuple [PyBool ok; PyBytes (slice_upto_neg 4 rawPayload)])
    /\ (le_uint (slice_from_neg 4 rawPayload) < 2 ^ 31 ->
        (ok = true <->
         le_uint (slice_from_neg 4 rawPayload)
         = crc32c (rawTag ++ slice_upto_neg 4 rawPayload))).
Proof.
  intros Hver Hbo Hlen.
  replace (ver >=? 2) with true by (symmetry; apply Z.geb_le; lia).
  eexists. split; [apply checkCRC_with_crc_result; assumption|].
  intros Hsmall. rewrite as_signed_small.
  - apply Z.eqb_eq.
  - pose proof (le_uint_range (slice_from_neg 4 rawPayload)). lia.
Qed.

Lemma checkCRC_returns_flag_and_payload_witness :
  exists ok : bool,
    OskarBinaryReader.checkCRC cpython310 (2 >=? 2) sample_tag
      payload_abcde
    = Returned (PyTuple [PyBool ok; PyBytes (slice_upto_neg 4 payload_abcde)])
    /\ (le_uint (slice_from_neg 4 payload_abcde) < 2 ^ 31 ->
        (ok = true <->
         le_uint (slice_from_neg 4 payload_abcde)
         = crc32c (sample_tag ++ slice_upto_neg 4 payload_abcde))).
Proof.
  apply (checkCRC_returns_flag_and_payload cpython310 2 sample_tag payload_abcde).
  - lia.
  - reflexivity.
  - vm_compute. lia.
Defined.

(** C1 as stated fails: the stored word and the computed CRC32C differ
    (the last trailer byte was changed), and the check raises nothing; it
    returns the flag [False] with the shortened payload. *)
Lemma checkCRC_mismatch_is_returned :
  le_uint (slice_from_neg 4 payload_abcde_flipped)
    <> crc32c (sample_tag ++ slice_upto_neg 4 payload_abcde_flipped)
  /\ OskarBinaryReader.checkCRC cpython310 (2 >=? 2) sample_tag payload_abcde_flipped
     = Returned (PyTuple [PyBool false; PyBytes (ascii_bytes "abcde")])
  /\ (forall e, OskarBinaryReader.checkCRC cpython310 (2 >=? 2) sample_tag
                  payload_abcde_flipped <> Raised e).
Proof.
  split; [vm_compute; discriminate|].
  split; [vm_compute; reflexivity|].
  intros e. vm_compute. discriminate.
Qed.

(** A record with a correct trailer passes the check. *)
Example checkCRC_abcde :
  OskarBinaryReader.checkCRC cpython310 true sample_tag payload_abcde
  = Returned (PyTuple [PyBool true; PyBytes (ascii_bytes "abcde")]).
Proof. vm_compute. reflexivity. Qed.

(** The stored word is read with the signed code "i" while the package
    returns an unsigned value: a correct trailer of 2^31 or more never
    compares equal. *)
Lemma checkCRC_signed_read (rt : Runtime) (rawTag rawPayload : list byte) :
  byteorder rt = LittleEndianHost ->
  (4 <= length rawPayload)%nat ->
  2 ^ 31 <= le_uint (slice_from_neg 4 rawPayload) ->
  OskarBinaryReader.checkCRC rt true rawTag rawPayload
  = Returned (PyTuple [PyBool false; PyBytes (slice_upto_neg 4 rawPayload)]).
Proof.
  intros Hbo Hlen Hbig.
  pose proof (crc32c_range (rawTag ++ slice_upto_neg 4 rawPayload)) as Hcrc.
  rewrite checkCRC_with_crc_result by assumption.
  pose proof (le_uint_range (slice_from_neg 4 rawPayload)) as Hr.
  rewrite slice_from_neg_length in Hr by assumption.
  rewrite as_signed_large by (change (256 ^ Z.of_nat 4) with (2 ^ 32) in Hr; lia).
  destruct (Z.eqb_spec (le_uint (slice_from_neg 4 rawPayload) - 2 ^ 32)
                       (crc32c (rawTag ++ slice_upto_neg 4 rawPayload)));
    [lia | reflexivity].
Qed.

Example checkCRC_abcdg_rejected :
  le_uint (slice_from_neg 4 payload_abcdg)
    = crc32c (sample_tag ++ slice_upto_neg 4 payload_abcdg)
  /\ OskarBinaryReader.checkCRC cpython310 true sample_tag payload_abcdg
     = Returned (PyTuple [PyBool false; PyBytes (ascii_bytes "abcdg")]).
Proof. split; vm_compute; reflexivity. Qed.

(** Without a checksum the check returns [True] before looking at
    either block, whatever they hold. *)
Lemma checkCRC_legacy_version_succeeds
    (rt : Runtime) (ver : Z) (rawTag rawPayload : list byte) :
  ver < 2 ->
  OskarBinaryReader.checkCRC rt (ver >=? 2) rawTag rawPayload
  = Returned (PyBool true).
Proof.
  intros Hver. unfold OskarBinaryReader.checkCRC.
  replace (ver >=? 2) with false; [reflexivity|].
  symmetry. destruct (Z.geb_spec ver 2); [lia | reflexivity].
Qed.

(** C8. For every version below 2 and every tag and payload block, the
    check raises nothing and reports success, but it hands no payload
    onward: it returns the bare [True] where the path with a checksum
    returns the pair of the flag and the payload, so the result is no
    pair of any flag and payload, and taking it apart into flag and
    payload, as is done with the result of the other path, is a
    [TypeError]. *)
Theorem checkCRC_legacy_hands_no_payload
    (rt : Runtime) (ver : Z) (rawTag rawPayload : list byte) :
  ver < 2 ->
  OskarBinaryReader.checkCRC rt (ver >=? 2) rawTag rawPayload
    = Returned (PyBool true)
  /\ (forall (ok : bool) (out : list byte),
        OskarBinaryReader.checkCRC rt (ver >=? 2) rawTag rawPayload
        <> Returned (PyTuple [PyBool ok; PyBytes out]))
  /\ (v <- OskarBinaryReader.checkCRC rt (ver >=? 2) rawTag rawPayload ;;
      unpack_two v) = Raised TypeError.
Proof.
  intros Hver.
  rewrite (checkCRC_legacy_version_succeeds rt ver rawTag rawPayload Hver).
  split; [reflexivity|]. split; [|reflexivity].
  intros ok out. discriminate.
Qed.

Lemma checkCRC_legacy_hands_no_payload_witness :
  OskarBinaryReader.checkCRC cpython310 (1 >=? 2) sample_tag payload_abcde
    = Returned (PyBool true)
  /\ (forall (ok : bool) (out : list byte),
        OskarBinaryReader.checkCRC cpython310 (1 >=? 2) sample_tag payload_abcde
        <> Returned (PyTuple [PyBool ok; PyBytes out]))
  /\ (v <- OskarBinaryReader.checkCRC cpython310 (1 >=? 2) sample_tag payload_abcde ;;
      unpack_two v) = Raised TypeError.
Proof.
  apply (checkCRC_legacy_hands_no_payload cpython310 1 sample_tag payload_abcde).
  lia.
Defined.

(** The path with a checksum, on the same tag and payload: the result is
    taken apart into the flag and the payload without its trailer. *)
Example checkCRC_with_crc_unpacks :
  (v <- OskarBinaryReader.checkCRC cpython310 (2 >=? 2) sample_tag payload_abcde ;;
   unpack_two v)
  = Returned (PyBool true, PyBytes (ascii_bytes "abcde")).
Proof. vm_compute. reflexivity. Qed.

(** C9. The CRC32C of the nine ASCII bytes "123456789" is 0xE3069283. *)
Theorem crc32c_check_value : crc32c (ascii_bytes "123456789") = 0xE3069283.
Proof. vm_compute. reflexivity. Qed.

(** ** The payload decoder: numbers *)

(** C4 as stated fails: for the sane int32 descriptor, a payload of 3
    bytes (not a multiple of 4) raises nothing, and a payload of 4 bytes
    gives no sequence of scalars; both calls return [None]. *)
Lemma interpreteNumbers_decodes_nothing :
  Tag.isSane cpython310 (tag_of_type 0x02) = true
  /\ Tag.isCharType (tag_of_type 0x02) = false
  /\ Nat.modulo (length (map byte_of_Z [1; 2; 3])) 4 <> 0%nat
  /\ OskarBinaryReader.interpretePayloadData (map byte_of_Z [1; 2; 3])
       (tag_of_type 0x02) = Returned PyNone
  /\ Nat.modulo (length (map byte_of_Z [1; 0; 0; 0])) 4 = 0%nat
  /\ OskarBinaryReader.interpretePayloadData (map byte_of_Z [1; 0; 0; 0])
       (tag_of_type 0x02) = Returned PyNone.
Proof. repeat split; try reflexivity. cbn. discriminate. Qed.

(** C4 (amended). For every tag without the char bit, sane or not, and
    every payload, the decoder returns [None]: the numeric decoder has an
    empty body, checks no length and raises nothing. *)
Theorem interpretePayloadData_numbers_none (payload : list byte) (tag : Tag.t) :
  Tag.isCharType tag = false ->
  OskarBinaryReader.interpretePayloadData payload tag = Returned PyNone.
Proof.
  intros Hchar. unfold OskarBinaryReader.interpretePayloadData.
  rewrite Hchar. reflexivity.
Qed.

Lemma interpretePayloadData_numbers_none_witness :
  OskarBinaryReader.interpretePayloadData (map byte_of_Z [1; 2; 3])
    (tag_of_type 0x48) = Returned PyNone.
Proof.
  apply (interpretePayloadData_numbers_none (map byte_of_Z [1; 2; 3]) (tag_of_type 0x48)).
  reflexivity.
Defined.

(** ** The type descriptor *)

(** C6 as stated fails: the descriptor 0b1000_0001 is not sane, and the
    payload decoder, which consults [isCharType] alone, still produces a
    decoded value for it. *)
Lemma insane_tag_is_decoded :
  Tag.isSane cpython310 (tag_of_type 0x81) = false
  /\ OskarBinaryReader.interpretePayloadData (ascii_bytes "abc") (tag_of_type 0x81)
     = Returned (PyStr [97; 98; 99]).
Proof. split; reflexivity. Qed.

(** C6 (amended). For every tag that fails [isSane], with assertions
    enabled, [printPayloadDataType] raises an [AssertionError] and builds
    no description. The payload decoder does not make that check itself:
    on such a tag it still decodes a char payload as text and returns
    [None] for any other, so the order of the two calls is the caller's
    business. *)
Theorem printPayloadDataType_rejects_insane (rt : Runtime) (tag : Tag.t) :
  debug rt = true ->
  Tag.isSane rt tag = false ->
  Tag.printPayloadDataType rt tag
  = Raised (AssertionError "Typedescription bits that should be 0 are not")
  /\ forall payload,
       OskarBinaryReader.interpretePayloadData payload tag
       = if Tag.isCharType tag
         then OskarBinaryReader.interpreteString payload
         else Returned PyNone.
Proof.
  intros Hdebug Hsane. split.
  - unfold Tag.printPayloadDataType. rewrite Hsane, Hdebug. reflexivity.
  - intros payload. reflexivity.
Qed.

Lemma printPayloadDataType_rejects_insane_witness :
  Tag.printPayloadDataType cpython310 (tag_of_type 0x81)
  = Raised (AssertionError "Typedescription bits that should be 0 are not")
  /\ forall payload,
       OskarBinaryReader.interpretePayloadData payload (tag_of_type 0x81)
       = if Tag.isCharType (tag_of_type 0x81)
         then OskarBinaryReader.interpreteString payload
         else Returned PyNone.
Proof.
  apply (printPayloadDataType_rejects_insane cpython310 (tag_of_type 0x81));
    reflexivity.
Defined.

(** On a sane tag the description names the base type and the modifiers. *)
Example printPayloadDataType_double_matrix :
  Tag.printPayloadDataType cpython38 (tag_of_type 0x48)
  = Returned "8 byte double type 2x2 matrix data, [ab, cd] "%string.
Proof. reflexivity. Qed.

(** ** The payload decoder: text *)

Lemma utf8_encode_cons (cp : Z) (text : list Z) :
  utf8_encode (cp :: text) = utf8_encode_cp cp ++ utf8_encode text.
Proof. reflexivity. Qed.

(** What the decoder accepts as a one, two, three or four byte sequence is
    the encoding of the scalar value it produces. *)
Lemma utf8_encode_decoded_1 (b0 : byte) :
  (byte_val b0 <? 0x80) = true ->
  utf8_encode_cp (byte_val b0) = [b0] /\ is_scalar (byte_val b0).
Proof.
  intros H0. pose proof (byte_val_range b0). bools_to_props.
  unfold utf8_encode_cp, is_scalar.
  destruct (Z.ltb_spec (byte_val b0) 0x80); [|lia].
  rewrite byte_of_Z_val. split; [reflexivity | lia].
Qed.

Lemma utf8_encode_decoded_2 (b0 b1 : byte) :
  byte_in 0xC2 0xDF b0 = true ->
  is_continuation b1 = true ->
  utf8_encode_cp ((byte_val b0 - 0xC0) * 64 + (byte_val b1 - 0x80)) = [b0; b1]
  /\ is_scalar ((byte_val b0 - 0xC0) * 64 + (byte_val b1 - 0x80)).
Proof.
  unfold is_continuation, byte_in. intros H0 H1. bools_to_props.
  set (cp := (byte_val b0 - 0xC0) * 64 + (byte_val b1 - 0x80)).
  assert (Hcp : 0x80 <= cp < 0x800) by (subst cp; lia).
  unfold utf8_encode_cp, is_scalar.
  destruct (Z.ltb_spec cp 0x80); [lia|].
  destruct (Z.ltb_spec cp 0x800); [|lia].
  split; [|lia].
  rewrite <- (byte_of_Z_val b0), <- (byte_of_Z_val b1) at 1.
  repeat f_equal; subst cp; divmod_lia.
Qed.

Lemma utf8_encode_decoded_3 (b0 b1 b2 : byte) :
  byte_in 0xE0 0xEF b0 = true ->
  byte_in (if byte_val b0 =? 0xE0 then 0xA0 else 0x80)
          (if byte_val b0 =? 0xED then 0x9F else 0xBF) b1 = true ->
  is_continuation b2 = true ->
  utf8_encode_cp ((byte_val b0 - 0xE0) * 4096 + (byte_val b1 - 0x80) * 64
                  + (byte_val b2 - 0x80)) = [b0; b1; b2]
  /\ is_scalar ((byte_val b0 - 0xE0) * 4096 + (byte_val b1 - 0x80) * 64
                + (byte_val b2 - 0x80)).
Proof.
  unfold is_continuation, byte_in. intros H0 H1 H2.
  destruct (Z.eqb_spec (byte_val b0) 0xE0), (Z.eqb_spec (byte_val b0) 0xED);
    bools_to_props;
    set (cp := (byte_val b0 - 0xE0) * 4096 + (byte_val b1 - 0x80) * 64
               + (byte_val b2 - 0x80));
    (assert (Hcp : 0x800 <= cp < 0x10000 /\ ~ (0xD800 <= cp <= 0xDFFF))
       by (subst cp; lia));
    unfold utf8_encode_cp, is_scalar;
    (destruct (Z.ltb_spec cp 0x80); [lia|]);
    (destruct (Z.ltb_spec cp 0x800); [lia|]);
    (destruct (Z.ltb_spec cp 0x10000); [|lia]);
    (split; [|lia]);
    rewrite <- (byte_of_Z_val b0), <- (byte_of_Z_val b1), <- (byte_of_Z_val b2) at 1;
    repeat f_equal; subst cp; divmod_lia.
Qed.

Lemma utf8_encode_decoded_4 (b0 b1 b2 b3 : byte) :
  byte_in 0xF0 0xF4 b0 = true ->
  byte_in (if byte_val b0 =? 0xF0 then 0x90 else 0x80)
          (if byte_val b0 =? 0xF4 then 0x8F else 0xBF) b1 = true ->
  is_continuation b2 = true ->
  is_continuation b3 = true ->
  utf8_encode_cp ((byte_val b0 - 0xF0) * 262144 + (byte_val b1 - 0x80) * 4096
                  + (byte_val b2 - 0x80) * 64 + (byte_val b3 - 0x80))
  = [b0; b1; b2; b3]
  /\ is_scalar ((byte_val b0 - 0xF0) * 262144 + (byte_val b1 - 0x80) * 4096
                + (byte_val b2 - 0x80) * 64 + (byte_val b3 - 0x80)).
Proof.
  unfold is_continuation, byte_in. intros H0 H1 H2 H3.
  destruct (Z.eqb_spec (byte_val b0) 0xF0), (Z.eqb_spec (byte_val b0) 0xF4);
    bools_to_props;
    set (cp := (byte_val b0 - 0xF0) * 262144 + (byte_val b1 - 0x80) * 4096
               + (byte_val b2 - 0x80) * 64 + (byte_val b3 - 0x80));
    (assert (Hcp : 0x10000 <= cp <= 0x10FFFF) by (subst cp; lia));
    unfold utf8_encode_cp, is_scalar;
    (destruct (Z.ltb_spec cp 0x80); [lia|]);
    (destruct (Z.ltb_spec cp 0x800); [lia|]);
    (destruct (Z.ltb_spec cp 0x10000); [lia|]);
    (split; [|lia]);
    rewrite <- (byte_of_Z_val b0), <- (byte_of_Z_val b1),
            <- (byte_of_Z_val b2), <- (byte_of_Z_val b3) at 1;
    repeat f_equal; subst cp; divmod_lia.
Qed.

Ltac decoded_tail IH H :=
  match type of H with
  | option_map _ (utf8_decode ?r) = Some _ =>
      let t := fresh "t" in
      let E := fresh "E" in
      destruct (utf8_decode r) as [t|] eqn:E; [|discriminate H];
      cbn [option_map] in H; injection H as <-;
      let Hs := fresh "Hs" in
      destruct (IH r t ltac:(cbn [length] in *; lia) E) as [Hs ->]
  end.

Lemma utf8_decode_sound_upto (n : nat) :
  forall (bs : list byte) (text : list Z),
    (length bs <= n)%nat ->
    utf8_decode bs = Some text ->
    Forall is_scalar text /\ bs = utf8_encode text.
Proof.
  induction n as [|n IH]; intros bs text Hlen Hdec.
  - destruct bs; [|cbn in Hlen; lia].
    injection Hdec as <-. split; [constructor | reflexivity].
  - destruct bs as [|b0 r0].
    { injection Hdec as <-. split; [constructor | reflexivity]. }
    cbn [utf8_decode] in Hdec.
    destruct (byte_val b0 <? 0x80) eqn:C1.
    { decoded_tail IH Hdec.
      destruct (utf8_encode_decoded_1 b0 C1) as [Henc Hsc].
      split; [constructor; assumption|].
      rewrite utf8_encode_cons, Henc. reflexivity. }
    destruct (byte_in 0xC2 0xDF b0) eqn:C2.
    { destruct r0 as [|b1 r1]; [discriminate|].
      destruct (is_continuation b1) eqn:K1; [|discriminate].
      decoded_tail IH Hdec.
      destruct (utf8_encode_decoded_2 b0 b1 C2 K1) as [Henc Hsc].
      split; [constructor; assumption|].
      rewrite utf8_encode_cons, Henc. reflexivity. }
    destruct (byte_in 0xE0 0xEF b0) eqn:C3.
    { destruct r0 as [|b1 [|b2 r2]]; try discriminate.
      destruct (byte_in _ _ b1) eqn:K1; [|discriminate].
      destruct (is_continuation b2) eqn:K2; [|discriminate].
      cbn [andb] in Hdec. decoded_tail IH Hdec.
      destruct (utf8_encode_decoded_3 b0 b1 b2 C3 K1 K2) as [Henc Hsc].
      split; [constructor; assumption|].
      rewrite utf8_encode_cons, Henc. reflexivity. }
    destruct (byte_in 0xF0 0xF4 b0) eqn:C4; [|discriminate].
    destruct r0 as [|b1 [|b2 [|b3 r3]]]; try discriminate.
    destruct (byte_in _ _ b1) eqn:K1; [|discriminate].
    destruct (is_continuation b2) eqn:K2; [|discriminate].
    destruct (is_continuation b3) eqn:K3; [|discriminate].
    cbn [andb] in Hdec. decoded_tail IH Hdec.
    destruct (utf8_encode_decoded_4 b0 b1 b2 b3 C4 K1 K2 K3) as [Henc Hsc].
    split; [constructor; assumption|].
    rewrite utf8_encode_cons, Henc. reflexivity.
Qed.

(** Whatever the decoder accepts is valid UTF-8, and the text it returns
    is the one the bytes encode. *)
Lemma utf8_decode_sound (bs : list byte) (text : list Z) :
  utf8_decode bs = Some text ->
  Forall is_scalar text /\ bs = utf8_encode text.
Proof. apply (utf8_decode_sound_upto (length bs)). lia. Qed.

(** One step of the decoder on an accepted sequence of each length. *)
Lemma byte_in_above_ascii (lo hi : Z) (b : byte) :
  0x80 <= lo -> byte_in lo hi b = true -> (byte_val b <? 0x80) = false.
Proof.
  unfold byte_in. intros Hlo H. bools_to_props. apply Z.ltb_ge. lia.
Qed.

Lemma byte_in_disjoint (lo hi lo' hi' : Z) (b : byte) :
  hi' < lo -> byte_in lo hi b = true -> byte_in lo' hi' b = false.
Proof.
  unfold byte_in. intros Hlo H. bools_to_props.
  apply andb_false_iff. right. apply Z.leb_gt. lia.
Qed.

Lemma utf8_decode_1 (b0 : byte) (r : list byte) :
  (byte_val b0 <? 0x80) = true ->
  utf8_decode (b0 :: r) = option_map (cons (byte_val b0)) (utf8_decode r).
Proof. intros H0. cbn [utf8_decode]. rewrite H0. reflexivity. Qed.

Lemma utf8_decode_2 (b0 b1 : byte) (r : list byte) :
  byte_in 0xC2 0xDF b0 = true ->
  is_continuation b1 = true ->
  utf8_decode (b0 :: b1 :: r)
  = option_map (cons ((byte_val b0 - 0xC0) * 64 + (byte_val b1 - 0x80)))
               (utf8_decode r).
Proof.
  intros H0 H1. remember (b1 :: r) as r0 eqn:Er0. cbn [utf8_decode].
  rewrite (byte_in_above_ascii 0xC2 0xDF b0 ltac:(lia) H0), H0. subst r0.
  rewrite H1. reflexivity.
Qed.

Lemma utf8_decode_3 (b0 b1 b2 : byte) (r : list byte) :
  byte_in 0xE0 0xEF b0 = true ->
  byte_in (if byte_val b0 =? 0xE0 then 0xA0 else 0x80)
          (if byte_val b0 =? 0xED then 0x9F else 0xBF) b1 = true ->
  is_continuation b2 = true ->
  utf8_decode (b0 :: b1 :: b2 :: r)
  = option_map (cons ((byte_val b0 - 0xE0) * 4096 + (byte_val b1 - 0x80) * 64
                      + (byte_val b2 - 0x80)))
               (utf8_decode r).
Proof.
  intros H0 H1 H2. remember (b1 :: b2 :: r) as r0 eqn:Er0. cbn [utf8_decode].
  rewrite (byte_in_above_ascii 0xE0 0xEF b0 ltac:(lia) H0),
          (byte_in_disjoint 0xE0 0xEF 0xC2 0xDF b0 ltac:(lia) H0), H0.
  subst r0. rewrite H1, H2. reflexivity.
Qed.

Lemma utf8_decode_4 (b0 b1 b2 b3 : byte) (r : list byte) :
  byte_in 0xF0 0xF4 b0 = true ->
  byte_in (if byte_val b0 =? 0xF0 then 0x90 else 0x80)
          (if byte_val b0 =? 0xF4 then 0x8F else 0xBF) b1 = true ->
  is_continuation b2 = true ->
  is_continuation b3 = true ->
  utf8_decode (b0 :: b1 :: b2 :: b3 :: r)
  = option_map (cons ((byte_val b0 - 0xF0) * 262144 + (byte_val b1 - 0x80) * 4096
                      + (byte_val b2 - 0x80) * 64 + (byte_val b3 - 0x80)))
               (utf8_decode r).
Proof.
  intros H0 H1 H2 H3. remember (b1 :: b2 :: b3 :: r) as r0 eqn:Er0.
  cbn [utf8_decode].
  rewrite (byte_in_above_ascii 0xF0 0xF4 b0 ltac:(lia) H0),
          (byte_in_disjoint 0xF0 0xF4 0xC2 0xDF b0 ltac:(lia) H0),
          (byte_in_disjoint 0xF0 0xF4 0xE0 0xEF b0 ltac:(lia) H0), H0.
  subst r0. rewrite H1, H2, H3. reflexivity.
Qed.

Lemma byte_in_of_Z (lo hi z : Z) :
  0 <= z < 256 -> lo <= z <= hi -> byte_in lo hi (byte_of_Z z) = true.
Proof.
  intros Hz Hr. unfold byte_in. rewrite byte_val_of_Z by assumption.
  apply andb_true_iff. split; apply Z.leb_le; lia.
Qed.

(** The decoder reads back the encoding of a scalar value. *)
Lemma utf8_decode_encode_cp (cp : Z) (rest : list byte) :
  is_scalar cp ->
  utf8_decode (utf8_encode_cp cp ++ rest) = option_map (cons cp) (utf8_decode rest).
Proof.
  intros [Hr Hs]. unfold utf8_encode_cp.
  destruct (Z.ltb_spec cp 0x80); [|destruct (Z.ltb_spec cp 0x800);
    [|destruct (Z.ltb_spec cp 0x10000)]]; cbn [app].
  - rewrite utf8_decode_1; rewrite byte_val_of_Z by lia;
      [reflexivity | apply Z.ltb_lt; lia].
  - rewrite utf8_decode_2.
    + rewrite !byte_val_of_Z by divmod_lia. do 2 f_equal. divmod_lia.
    + apply byte_in_of_Z; divmod_lia.
    + apply byte_in_of_Z; divmod_lia.
  - rewrite utf8_decode_3.
    + rewrite !byte_val_of_Z by divmod_lia. do 2 f_equal. divmod_lia.
    + apply byte_in_of_Z; divmod_lia.
    + rewrite byte_val_of_Z by divmod_lia.
      destruct (Z.eqb_spec (0xE0 + cp / 4096) 0xE0),
               (Z.eqb_spec (0xE0 + cp / 4096) 0xED);
        apply byte_in_of_Z; divmod_lia.
    + apply byte_in_of_Z; divmod_lia.
  - rewrite utf8_decode_4.
    + rewrite !byte_val_of_Z by divmod_lia. do 2 f_equal. divmod_lia.
    + apply byte_in_of_Z; divmod_lia.
    + rewrite byte_val_of_Z by divmod_lia.
      destruct (Z.eqb_spec (0xF0 + cp / 262144) 0xF0),
               (Z.eqb_spec (0xF0 + cp / 262144) 0xF4);
        apply byte_in_of_Z; divmod_lia.
    + apply byte_in_of_Z; divmod_lia.
    + apply byte_in_of_Z; divmod_lia.
Qed.

Lemma utf8_decode_encode (text : list Z) :
  Forall is_scalar text -> utf8_decode (utf8_encode text) = Some text.
Proof.
  induction 1 as [|cp text Hcp _ IH]; [reflexivity|].
  rewrite utf8_encode_cons, utf8_decode_encode_cp, IH by assumption.
  reflexivity.
Qed.

(** The decoder accepts a byte block exactly when it is valid UTF-8. *)
Lemma utf8_decode_none_iff (bs : list byte) :
  utf8_decode bs = None <-> ~ valid_utf8 bs.
Proof.
  split.
  - intros Hnone (text & Hs & ->). rewrite utf8_decode_encode in Hnone by assumption.
    discriminate.
  - intros Hinv. destruct (utf8_decode bs) as [text|] eqn:E; [|reflexivity].
    exfalso. apply Hinv. exists text. apply utf8_decode_sound. exact E.
Qed.

(** C7. For every tag with the char bit set, decoding a payload that is
    the UTF-8 encoding of a text returns that text, and decoding a payload
    that is not valid UTF-8 raises the codec's [UnicodeDecodeError]. *)
Theorem interpretePayloadData_char (payload : list byte) (tag : Tag.t) :
  Tag.isCharType tag = true ->
  (forall text, Forall is_scalar text -> payload = utf8_encode text ->
     OskarBinaryReader.interpretePayloadData payload tag = Returned (PyStr text))
  /\ (~ valid_utf8 payload ->
      OskarBinaryReader.interpretePayloadData payload tag = Raised UnicodeDecodeError).
Proof.
  intros Hchar.
  unfold OskarBinaryReader.interpretePayloadData, OskarBinaryReader.interpreteString.
  rewrite Hchar. split.
  - intros text Hs ->. rewrite utf8_decode_encode by assumption. reflexivity.
  - intros Hinv. apply utf8_decode_none_iff in Hinv. rewrite Hinv. reflexivity.
Qed.

Lemma interpretePayloadData_char_witness :
  OskarBinaryReader.interpretePayloadData (ascii_bytes "abcde") (tag_of_type 0x01)
    = Returned (PyStr [97; 98; 99; 100; 101])
  /\ OskarBinaryReader.interpretePayloadData (map byte_of_Z [0xC0; 0x80])
       (tag_of_type 0x01)
    = Raised UnicodeDecodeError.
Proof.
  split.
  - apply (proj1 (interpretePayloadData_char (ascii_bytes "abcde")
                    (tag_of_type 0x01) eq_refl) [97; 98; 99; 100; 101]).
    + repeat (apply Forall_cons; [unfold is_scalar; lia|]). apply Forall_nil.
    + reflexivity.
  - apply (proj2 (interpretePayloadData_char (map byte_of_Z [0xC0; 0x80])
                    (tag_of_type 0x01) eq_refl)).
    apply utf8_decode_none_iff. reflexivity.
Defined.

(** Text outside ASCII, and three blocks the codec refuses: an overlong
    form, an encoded surrogate, a truncated sequence. *)
Example interpreteString_euro :
  OskarBinaryReader.interpreteString (map byte_of_Z [0xE2; 0x82; 0xAC; 0x41])
  = Returned (PyStr [0x20AC; 0x41]).
Proof. reflexivity. Qed.

Example interpreteString_refused :
  OskarBinaryReader.interpreteString (map byte_of_Z [0xC0; 0x80])
    = Raised UnicodeDecodeError
  /\ OskarBinaryReader.interpreteString (map byte_of_Z [0xED; 0xA0; 0x80])
    = Raised UnicodeDecodeError
  /\ OskarBinaryReader.interpreteString (map byte_of_Z [0xE2; 0x82])
    = Raised UnicodeDecodeError.
Proof. repeat split; reflexivity. Qed.

(** ** The value of a [c_char] array *)

Lemma c_char_array_value_no_nul (bs : list byte) :
  ~ In x00 (c_char_array_value bs).
Proof.
  induction bs as [|b bs IH]; [intros []|].
  cbn [c_char_array_value]. destruct (Byte.eqb b x00) eqn:E; [intros []|].
  intros [Hb|Hin]; [|exact (IH Hin)].
  subst b. cbn in E. discriminate E.
Qed.

Lemma c_char_array_value_length (bs : list byte) :
  (length (c_char_array_value bs) <= length bs)%nat.
Proof.
  induction bs as [|b bs IH]; [cbn; lia|].
  cbn [c_char_array_value]. destruct (Byte.eqb b x00); cbn; lia.
Qed.

Lemma c_char_array_value_id (bs : list byte) :
  ~ In x00 bs -> c_char_array_value bs = bs.
Proof.
  induction bs as [|b bs IH]; [reflexivity|]. intros Hnot.
  cbn [c_char_array_value]. destruct (Byte.eqb b x00) eqn:E.
  - exfalso. apply Hnot. left. symmetry. apply Byte.byte_dec_bl. exact E.
  - f_equal. apply IH. intros Hin. apply Hnot. right. exact Hin.
Qed.

(** ** The header decoder *)

Lemma slice_as_skipn {A : Type} (lo n : nat) (l : list A) :
  firstn n (skipn lo l) = slice lo (lo + n) l.
Proof. unfold slice. f_equal. lia. Qed.

(** [create_from_bytes] on a block of the size of the format: every field
    is read from its place, nothing is compared with anything. *)
Lemma FileHeader_create_from_bytes_fields (block : list byte) :
  length block = 64%nat ->
  FileHeader.create_from_bytes block
  = Returned (FileHeader.mk
      (c_char_array_value (slice 0 9 block))
      (le_uint (slice 9 10 block)) (le_uint (slice 10 11 block))
      (le_uint (slice 11 12 block)) (le_uint (slice 12 13 block))
      (le_uint (slice 13 14 block)) (le_uint (slice 14 15 block))
      (le_uint (slice 15 16 block)) (le_uint (slice 16 20 block))
      (le_uint (slice 20 28 block)) (le_uint (slice 28 36 block))
      (le_uint (slice 36 44 block)) (le_uint (slice 44 52 block))
      (le_uint (slice 52 60 block)) (le_uint (slice 60 64 block))).
Proof.
  intros Hlen. unfold FileHeader.create_from_bytes, create_from_bytes, struct_unpack.
  rewrite Hlen.
  change (Nat.eqb 64 (calcsize (struct_format FileHeader._fields_))) with true.
  cbn [bind struct_format map FileHeader._fields_ field_format snd ctype_type_code
       ctype_size Nat.eqb unpack_fields unpack_code code_size read_uint
       FileHeader.cls].
  rewrite !skipn_skipn. cbn [Nat.add].
  rewrite !slice_as_skipn. reflexivity.
Qed.

Lemma create_from_bytes_wrong_size (block : list byte) :
  length block <> 64%nat ->
  FileHeader.create_from_bytes block = Raised StructError.
Proof.
  intros Hlen. unfold FileHeader.create_from_bytes, create_from_bytes, struct_unpack.
  change (calcsize (struct_format FileHeader._fields_)) with 64%nat.
  destruct (Nat.eqb_spec (length block) 64); [contradiction | reflexivity].
Qed.

Lemma readBinaryFile_outcome (content : list byte) :
  OskarBinaryReader.readBinaryFile content
  = if Nat.eqb (length content) 0 then Raised ValueError else Raised TypeError.
Proof.
  unfold OskarBinaryReader.readBinaryFile.
  destruct (Nat.eqb (length content) 0); reflexivity.
Qed.

(** C5 as stated fails: the block of 64 bytes 0xFF starts with no
    signature and its reserved bytes are not zero, and the header is
    built from it all the same. *)
Lemma header_ff_is_accepted :
  slice 0 9 block_ff <> ascii_bytes "OSKARBIN" ++ [x00]
  /\ FileHeader.reserved_bytes block_ff <> repeat x00 44
  /\ FileHeader.create_from_bytes block_ff
     = Returned (FileHeader.mk (repeat xff 9) 255 255 255 255 255 255 255
                   0xFFFFFFFF 0xFFFFFFFFFFFFFFFF 0xFFFFFFFFFFFFFFFF
                   0xFFFFFFFFFFFFFFFF 0xFFFFFFFFFFFFFFFF 0xFFFFFFFFFFFFFFFF
                   0xFFFFFFFF).
Proof.
  split; [vm_compute; discriminate|].
  split; [vm_compute; discriminate|].
  vm_compute. reflexivity.
Qed.

(** C5 (amended). For every 64-byte block, [create_from_bytes] succeeds
    and produces a [FileHeader]: [desc] takes the signature bytes that
    come before the first NUL among the first 9, [reserved0] to
    [reserved5] take the 44 reserved bytes as they are found; they are
    compared with nothing, and no error depends on them. *)
Theorem FileHeader_create_from_bytes_accepts (block : list byte) :
  length block = 64%nat ->
  exists h : FileHeader.t,
    FileHeader.create_from_bytes block = Returned h
    /\ FileHeader.desc h = c_char_array_value (slice 0 9 block)
    /\ [FileHeader.reserved0 h; FileHeader.reserved1 h; FileHeader.reserved2 h;
        FileHeader.reserved3 h; FileHeader.reserved4 h; FileHeader.reserved5 h]
       = map (fun r => le_uint (slice (fst r) (snd r) block))
             [(20, 28); (28, 36); (36, 44); (44, 52); (52, 60); (60, 64)]%nat.
Proof.
  intros Hlen. eexists. split.
  - apply FileHeader_create_from_bytes_fields. exact Hlen.
  - split; reflexivity.
Qed.

Lemma FileHeader_create_from_bytes_accepts_witness :
  exists h : FileHeader.t,
    FileHeader.create_from_bytes sample_header = Returned h
    /\ FileHeader.desc h = c_char_array_value (slice 0 9 sample_header)
    /\ [FileHeader.reserved0 h; FileHeader.reserved1 h; FileHeader.reserved2 h;
        FileHeader.reserved3 h; FileHeader.reserved4 h; FileHeader.reserved5 h]
       = map (fun r => le_uint (slice (fst r) (snd r) sample_header))
             [(20, 28); (28, 36); (36, 44); (44, 52); (52, 60); (60, 64)]%nat.
Proof.
  apply (FileHeader_create_from_bytes_accepts sample_header). reflexivity.
Defined.

(** The sample header decodes to the values it was written with. *)
Example create_from_bytes_sample_header :
  FileHeader.create_from_bytes sample_header
  = Returned (FileHeader.mk (ascii_bytes "OSKARBIN") 2 1 8 4 8 4 8
                0x00020001 0 0 0 0 0 0).
Proof. vm_compute. reflexivity. Qed.

(** Without [_pack_] the ctypes layouts are larger than the blocks the
    reader cuts: 72 bytes for the header, 24 for a tag. *)
Example ctypes_sizes :
  ctypes_sizeof FileHeader._fields_ = 72%nat
  /\ ctypes_sizeof Tag._fields_ = 24%nat
  /\ calcsize (struct_format FileHeader._fields_) = OskarBinaryReader.HEADER_SIZE
  /\ calcsize (struct_format Tag._fields_) = OskarBinaryReader.TAG_SIZE.
Proof. repeat split; reflexivity. Qed.

(** ** The file scanner *)

(** C2 as stated fails: a file made of a well-formed header and one
    well-formed record (tag of 20 bytes announcing 5 bytes, followed by
    exactly 5 bytes that decode to "abcde") yields no record and does not
    end normally; the call stops with a [TypeError] at the header. *)
Lemma readBinaryFile_one_record_file :
  length sample_header = OskarBinaryReader.HEADER_SIZE
  /\ slice 0 9 sample_header = ascii_bytes "OSKARBIN" ++ [x00]
  /\ FileHeader.reserved_bytes sample_header = repeat x00 44
  /\ Tag.create_from_bytes sample_tag_plain
     = Returned (Tag.mk (ascii_bytes "T") (ascii_bytes "B") (ascii_bytes "G")
                        1 0 1 1 2 0 5)
  /\ length (ascii_bytes "abcde") = 5%nat
  /\ OskarBinaryReader.interpretePayloadData (ascii_bytes "abcde")
       (Tag.mk (ascii_bytes "T") (ascii_bytes "B") (ascii_bytes "G") 1 0 1 1 2 0 5)
     = Returned (PyStr [97; 98; 99; 100; 101])
  /\ OskarBinaryReader.readBinaryFile one_record_file = Raised TypeError.
Proof. repeat split; vm_compute; reflexivity. Qed.

(** C2 (amended). For every file content, [readBinaryFile] goes no
    further than the 64-byte header block: it reads no tag and no
    payload and yields no record, two files with the same first 64 bytes
    have the same outcome, and that outcome is an exception or [None]. *)
Theorem readBinaryFile_reads_header_only (content content' : list byte) :
  firstn OskarBinaryReader.HEADER_SIZE content
    = firstn OskarBinaryReader.HEADER_SIZE content' ->
  OskarBinaryReader.readBinaryFile content
    = OskarBinaryReader.readBinaryFile content'
  /\ (OskarBinaryReader.readBinaryFile content = Returned PyNone
      \/ exists e, OskarBinaryReader.readBinaryFile content = Raised e).
Proof.
  intros Hhead. rewrite !readBinaryFile_outcome. split.
  - destruct content as [|b c], content' as [|b' c']; try reflexivity;
      cbn in Hhead; discriminate.
  - right. destruct (Nat.eqb (length content) 0); eexists; reflexivity.
Qed.

Lemma readBinaryFile_reads_header_only_witness :
  OskarBinaryReader.readBinaryFile one_record_file
    = OskarBinaryReader.readBinaryFile sample_header
  /\ (OskarBinaryReader.readBinaryFile one_record_file = Returned PyNone
      \/ exists e, OskarBinaryReader.readBinaryFile one_record_file = Raised e).
Proof.
  apply (readBinaryFile_reads_header_only one_record_file sample_header).
  reflexivity.
Defined.

(* ===================================================================== *)
(** * Further properties of the reader                                    *)
(* ===================================================================== *)

(** ** Population count: single bits and negative input *)

Lemma pos_bit_count_pos (p : positive) : 1 <= pos_bit_count p.
Proof. induction p; cbn [pos_bit_count]; lia. Qed.

Lemma pos_bit_count_one (p : positive) :
  pos_bit_count p = 1 <-> exists k : nat, Zpos p = 2 ^ Z.of_nat k.
Proof.
  induction p as [q IH|q IH|].
  - cbn [pos_bit_count]. pose proof (pos_bit_count_pos q). split; [lia|].
    intros [k Hk]. exfalso. destruct k as [|k].
    + cbn in Hk. lia.
    + rewrite Nat2Z.inj_succ, Z.pow_succ_r in Hk by lia. lia.
  - cbn [pos_bit_count]. rewrite IH. split; intros [k Hk].
    + exists (S k). rewrite Nat2Z.inj_succ, Z.pow_succ_r by lia. lia.
    + destruct k as [|k].
      * cbn in Hk. lia.
      * exists k. rewrite Nat2Z.inj_succ, Z.pow_succ_r in Hk by lia. lia.
  - split; [|reflexivity]. intros _. exists 0%nat. reflexivity.
Qed.

(** X1. For every non-negative integer, [popCount] is 1 exactly on the
    powers of two, whichever implementation the interpreter selects. *)
Theorem popCount_one_iff_power_of_two (rt : Runtime) (n : Z) :
  0 <= n ->
  popCount rt n = 1 <-> exists k : Z, 0 <= k /\ n = 2 ^ k.
Proof.
  intros Hn. rewrite popCount_bit_count by assumption.
  destruct n as [|p|p]; try lia.
  - cbn. split; [lia|]. intros (k & Hk & E).
    pose proof (Z.pow_pos_nonneg 2 k ltac:(lia) Hk). lia.
  - cbn [int_bit_count]. rewrite pos_bit_count_one. split.
    + intros [k Hk]. exists (Z.of_nat k). split; [lia | exact Hk].
    + intros (k & Hk & E). exists (Z.to_nat k). rewrite Z2Nat.id by assumption.
      exact E.
Qed.

Lemma popCount_one_iff_power_of_two_witness :
  popCount cpython38 8 = 1 <-> exists k : Z, 0 <= k /\ 8 = 2 ^ k.
Proof. apply (popCount_one_iff_power_of_two cpython38 8). lia. Defined.

(** X2. On a negative integer the two implementations part: the loop of
    [legacyPopCount] is never entered and gives 0, [fastPopCount] counts
    the ones of the absolute value, at least one; so [popCount] of a
    negative number depends on the interpreter version. *)
Theorem popCount_negative (rt : Runtime) (n : Z) :
  n < 0 ->
  legacyPopCount n = 0
  /\ fastPopCount n = fastPopCount (- n)
  /\ 1 <= fastPopCount n
  /\ popCount rt n
     = if (fst (version_info rt) >=? 3) && (snd (version_info rt) >=? 10)
       then fastPopCount (- n) else 0.
Proof.
  intros Hn. destruct n as [|p|p]; try lia.
  assert (Hl : legacyPopCount (Zneg p) = 0).
  { unfold legacyPopCount. simp legacyPopCount_loop.
    destruct (Z_gt_dec (Zneg p) 0); [lia | reflexivity]. }
  split; [exact Hl|]. split; [reflexivity|]. split.
  - apply pos_bit_count_pos.
  - unfold popCount. rewrite Hl. reflexivity.
Qed.

Lemma popCount_negative_witness :
  legacyPopCount (-6) = 0
  /\ fastPopCount (-6) = fastPopCount (- -6)
  /\ 1 <= fastPopCount (-6)
  /\ popCount cpython38 (-6)
     = if (fst (version_info cpython38) >=? 3) && (snd (version_info cpython38) >=? 10)
       then fastPopCount (- -6) else 0.
Proof. apply (popCount_negative cpython38 (-6)). lia. Defined.

(** ** Tag: the bit-field accessors *)

Lemma land_pow2 (a k : Z) :
  0 <= k -> Z.land a (2 ^ k) = if Z.testbit a k then 2 ^ k else 0.
Proof.
  intros Hk. apply Z.bits_inj'. intros i Hi.
  rewrite Z.land_spec, Z.pow2_bits_eqb by assumption.
  destruct (Z.eqb_spec k i) as [->|Hne].
  - destruct (Z.testbit a i) eqn:E; cbn.
    + rewrite Z.pow2_bits_true by assumption. reflexivity.
    + rewrite Z.bits_0. reflexivity.
  - rewrite andb_false_r. destruct (Z.testbit a k).
    + rewrite Z.pow2_bits_false by assumption. reflexivity.
    + rewrite Z.bits_0. reflexivity.
Qed.

Lemma land_pow2_nonzero (a k : Z) :
  0 <= k -> negb (Z.land a (2 ^ k) =? 0) = Z.testbit a k.
Proof.
  intros Hk. rewrite land_pow2 by assumption.
  pose proof (Z.pow_pos_nonneg 2 k ltac:(lia) Hk).
  destruct (Z.testbit a k).
  - destruct (Z.eqb_spec (2 ^ k) 0); [lia | reflexivity].
  - reflexivity.
Qed.

(** X3. The three chunk-flag accessors return the masked integer, not a
    bool: 0 when the bit is clear and the mask itself (0x10, 0x40, 0x80)
    when bit 4, 6 or 7 of [chunkFlags] is set; so each is true in an [if]
    exactly when its bit is set. *)
Theorem chunk_flag_accessors (self : Tag.t) :
  Tag.isPayloadBigEndian self
    = (if Z.testbit (Tag.chunkFlags self) 4 then 0x10 else 0)
  /\ Tag.usesCRC32CEncoding self
    = (if Z.testbit (Tag.chunkFlags self) 6 then 0x40 else 0)
  /\ Tag.isTagExtended self
    = (if Z.testbit (Tag.chunkFlags self) 7 then 0x80 else 0)
  /\ Tag.truthy (Tag.isPayloadBigEndian self) = Z.testbit (Tag.chunkFlags self) 4
  /\ Tag.truthy (Tag.usesCRC32CEncoding self) = Z.testbit (Tag.chunkFlags self) 6
  /\ Tag.truthy (Tag.isTagExtended self) = Z.testbit (Tag.chunkFlags self) 7.
Proof.
  unfold Tag.isPayloadBigEndian, Tag.usesCRC32CEncoding, Tag.isTagExtended,
    Tag.truthy.
  repeat split.
  - apply (land_pow2 _ 4). lia.
  - apply (land_pow2 _ 6). lia.
  - apply (land_pow2 _ 7). lia.
  - apply (land_pow2_nonzero _ 4). lia.
  - apply (land_pow2_nonzero _ 6). lia.
  - apply (land_pow2_nonzero _ 7). lia.
Qed.

(** X4. The accessors of the type descriptor read single bits of
    [payloadDataType]: char, int, float and double are the bits 0 to 3,
    complex is bit 5 and matrix is bit 6 (the last two as masked
    integers). *)
Theorem type_descriptor_accessors (self : Tag.t) :
  Tag.isCharType self = Z.testbit (Tag.payloadDataType self) 0
  /\ Tag.isIntType self = Z.testbit (Tag.payloadDataType self) 1
  /\ Tag.isFloatType self = Z.testbit (Tag.payloadDataType self) 2
  /\ Tag.isDoubleType self = Z.testbit (Tag.payloadDataType self) 3
  /\ Tag.isComplex self
     = (if Z.testbit (Tag.payloadDataType self) 5 then 0x20 else 0)
  /\ Tag.isMatrix self
     = (if Z.testbit (Tag.payloadDataType self) 6 then 0x40 else 0).
Proof.
  unfold Tag.isCharType, Tag.isIntType, Tag.isFloatType, Tag.isDoubleType,
    Tag.isComplex, Tag.isMatrix.
  repeat split.
  - apply (land_pow2_nonzero _ 0). lia.
  - apply (land_pow2_nonzero _ 1). lia.
  - apply (land_pow2_nonzero _ 2). lia.
  - apply (land_pow2_nonzero _ 3). lia.
  - apply (land_pow2 _ 5). lia.
  - apply (land_pow2 _ 6). lia.
Qed.

(** The low four bits of any integer, as a number below 16. *)
Lemma land_15_range (p : Z) : 0 <= Z.land p 0x0F < 16.
Proof.
  change 0x0F with (Z.ones 4). rewrite Z.land_ones by lia.
  apply Z.mod_pos_bound. lia.
Qed.

Lemma land_low_mask (p m : Z) :
  Z.land 0x0F m = m -> Z.land p m = Z.land (Z.land p 0x0F) m.
Proof. intros Hm. rewrite <- Z.land_assoc, Hm. reflexivity. Qed.

Lemma one_bit_one_flag (m : Z) :
  0 <= m < 16 ->
  int_bit_count m = 1 -> length (filter (fun b : bool => b) (base_flags m)) = 1%nat.
Proof.
  intros Hm Hc.
  assert (H : implb ((m <? 16) && (int_bit_count m =? 1))
                (Nat.eqb (length (filter (fun b : bool => b) (base_flags m))) 1)
              = true).
  { apply (forall_byte_values
             (fun x => implb ((x <? 16) && (int_bit_count x =? 1))
                (Nat.eqb (length (filter (fun b : bool => b) (base_flags x))) 1)));
      [vm_compute; reflexivity | lia]. }
  rewrite Hc in H. replace (m <? 16) with true in H by (symmetry; apply Z.ltb_lt; lia).
  cbn [Z.eqb Pos.eqb andb implb] in H. apply Nat.eqb_eq. exact H.
Qed.

Lemma isSane_base_flag_count (rt : Runtime) (self : Tag.t) :
  Tag.isSane rt self = true ->
  length (filter (fun b : bool => b)
            [Tag.isCharType self; Tag.isIntType self;
             Tag.isFloatType self; Tag.isDoubleType self]) = 1%nat.
Proof.
  unfold Tag.isSane. intros Hs. apply andb_true_iff in Hs. destruct Hs as [_ Hc].
  pose proof (land_15_range (Tag.payloadDataType self)) as Hr.
  rewrite popCount_bit_count in Hc by lia. apply Z.eqb_eq in Hc.
  pose proof (one_bit_one_flag _ Hr Hc) as H1.
  unfold base_flags in H1.
  rewrite <- !land_low_mask in H1 by reflexivity. exact H1.
Qed.

(** X5. For every tag that passes [isSane], whatever integer its
    descriptor holds, exactly one of [isCharType], [isIntType],
    [isFloatType], [isDoubleType] is true. *)
Theorem isSane_one_base_type (rt : Runtime) (self : Tag.t) :
  Tag.isSane rt self = true ->
  length (filter (fun b : bool => b)
            [Tag.isCharType self; Tag.isIntType self;
             Tag.isFloatType self; Tag.isDoubleType self]) = 1%nat.
Proof.
  intros Hs. unfold Tag.isSane in Hs.
  apply andb_true_iff in Hs. destruct Hs as [_ Hcount].
  pose proof (land_15_range (Tag.payloadDataType self)) as Hlow.
  rewrite popCount_bit_count in Hcount by lia. apply Z.eqb_eq in Hcount.
  pose proof (one_bit_one_flag _ Hlow Hcount) as Hflags.
  unfold base_flags in Hflags.
  rewrite <- !land_low_mask in Hflags by reflexivity.
  exact Hflags.
Qed.

Lemma isSane_one_base_type_witness :
  length (filter (fun b : bool => b)
            [Tag.isCharType (tag_of_type 0x64); Tag.isIntType (tag_of_type 0x64);
             Tag.isFloatType (tag_of_type 0x64); Tag.isDoubleType (tag_of_type 0x64)])
  = 1%nat.
Proof. apply (isSane_one_base_type cpython38 (tag_of_type 0x64)). reflexivity. Defined.

(** ** Tag: the description of the type *)

(** X6. [printPayloadDataType] raises exactly when the tag is not sane
    and assertions are enabled, and then an [AssertionError]; with
    assertions disabled the test is stripped and every tag, sane or not,
    gets a description. *)
Theorem printPayloadDataType_raises_iff (rt : Runtime) (self : Tag.t) :
  ((exists e, Tag.printPayloadDataType rt self = Raised e)
   <-> (Tag.isSane rt self = false /\ debug rt = true))
  /\ (forall e, Tag.printPayloadDataType rt self = Raised e ->
        e = AssertionError "Typedescription bits that should be 0 are not")
  /\ (debug rt = false ->
        exists d, Tag.printPayloadDataType rt self = Returned d).
Proof.
  unfold Tag.printPayloadDataType.
  destruct (Tag.isSane rt self), (debug rt); cbn [negb andb];
    (split; [split; [intros [e He]; try discriminate He; split; reflexivity
                    | intros [H1 H2]; try discriminate H1; try discriminate H2;
                      eexists; reflexivity]
            | split; [intros e He; try discriminate He; injection He as <-; reflexivity
                     | intros Hd; try discriminate Hd; eexists; reflexivity]]).
Qed.

(** X7. For every sane tag the description is returned, never an error,
    and it starts with the phrase of the one base type whose bit is set:
    the chain of tests never falls through without naming a type. *)
Theorem printPayloadDataType_names_base_type (rt : Runtime) (self : Tag.t) :
  Tag.isSane rt self = true ->
  exists base d : string,
    Tag.printPayloadDataType rt self = Returned d
    /\ In (base, true)
          [("1 byte char type ", Tag.isCharType self);
           ("4 byte integer type ", Tag.isIntType self);
           ("4 byte float type ", Tag.isFloatType self);
           ("8 byte double type ", Tag.isDoubleType self)]%string
    /\ String.prefix base d = true.
Proof.
  intros Hs. pose proof (isSane_base_flag_count rt self Hs) as Hone.
  unfold Tag.printPayloadDataType. rewrite Hs. cbn [negb andb].
  destruct (Tag.isCharType self), (Tag.isIntType self),
           (Tag.isFloatType self), (Tag.isDoubleType self);
    cbn in Hone; try discriminate Hone;
    destruct (Tag.truthy (Tag.isComplex self)),
             (Tag.truthy (Tag.isMatrix self));
    eexists; eexists; (split; [reflexivity|]);
    (split; [cbn; auto 6 | reflexivity]).
Qed.

Lemma printPayloadDataType_names_base_type_witness :
  exists base d : string,
    Tag.printPayloadDataType cpython310 (tag_of_type 0x24) = Returned d
    /\ In (base, true)
          [("1 byte char type ", Tag.isCharType (tag_of_type 0x24));
           ("4 byte integer type ", Tag.isIntType (tag_of_type 0x24));
           ("4 byte float type ", Tag.isFloatType (tag_of_type 0x24));
           ("8 byte double type ", Tag.isDoubleType (tag_of_type 0x24))]%string
    /\ String.prefix base d = true.
Proof.
  apply (printPayloadDataType_names_base_type cpython310 (tag_of_type 0x24)).
  reflexivity.
Defined.

(** ** Unpacking fixed layouts *)

Lemma slice_length {A : Type} (lo hi : nat) (l : list A) :
  (lo <= hi)%nat -> (hi <= length l)%nat -> length (slice lo hi l) = (hi - lo)%nat.
Proof.
  intros H1 H2. unfold slice. rewrite length_firstn, length_skipn. lia.
Qed.

Lemma le_uint_inj (a : list byte) :
  forall b, length a = length b -> le_uint a = le_uint b -> a = b.
Proof.
  induction a as [|x a IH]; intros [|y b] Hlen Heq; try discriminate Hlen.
  - reflexivity.
  - cbn [le_uint fold_right] in Heq. fold (le_uint a) in Heq. fold (le_uint b) in Heq.
    pose proof (byte_val_range x). pose proof (byte_val_range y).
    assert (byte_val x = byte_val y) by lia.
    assert (le_uint a = le_uint b) by lia.
    f_equal; [apply byte_val_inj; assumption | apply IH; [cbn in Hlen; lia | assumption]].
Qed.

Lemma as_signed_inj (bits u v : Z) :
  0 < bits -> 0 <= u < 2 ^ bits -> 0 <= v < 2 ^ bits ->
  as_signed bits u = as_signed bits v -> u = v.
Proof.
  intros Hb Hu Hv. unfold as_signed.
  assert (2 ^ bits = 2 * 2 ^ (bits - 1)).
  { replace bits with (Z.succ (bits - 1)) at 1 by lia. apply Z.pow_succ_r. lia. }
  destruct (Z.geb_spec u (2 ^ (bits - 1))), (Z.geb_spec v (2 ^ (bits - 1))); lia.
Qed.

Lemma unpack_code_inj (c : FormatCode) (a b : list byte) :
  length a = code_size c -> length b = code_size c ->
  unpack_code LittleEndianHost c a = unpack_code LittleEndianHost c b -> a = b.
Proof.
  intros Ha Hb Heq.
  pose proof (le_uint_range a) as Ra. pose proof (le_uint_range b) as Rb.
  rewrite Ha in Ra. rewrite Hb in Rb.
  destruct c; cbn [unpack_code read_uint code_size] in *;
    injection Heq as Heq; try assumption;
    try (apply le_uint_inj; [congruence | assumption]);
    apply le_uint_inj; try congruence.
  - apply (as_signed_inj 32); try lia; assumption.
  - apply (as_signed_inj 32); try lia; assumption.
  - apply (as_signed_inj 64); try lia; assumption.
Qed.

(** Unpacking loses nothing: two blocks of the size of a format that
    unpack to the same values are the same block. *)
Lemma unpack_fields_inj (fmt : list FormatCode) :
  forall a b : list byte,
    length a = calcsize fmt -> length b = calcsize fmt ->
    unpack_fields LittleEndianHost fmt a = unpack_fields LittleEndianHost fmt b ->
    a = b.
Proof.
  induction fmt as [|c fmt IH]; intros a b Ha Hb Heq.
  - destruct a, b; try discriminate; reflexivity.
  - cbn [calcsize fold_right] in Ha, Hb. fold (calcsize fmt) in Ha, Hb.
    cbn [unpack_fields] in Heq. injection Heq as Hhead Htail.
    rewrite <- (firstn_skipn (code_size c) a), <- (firstn_skipn (code_size c) b).
    f_equal.
    + apply (unpack_code_inj c); [rewrite length_firstn; lia .. | assumption].
    + apply IH; [rewrite length_skipn; lia .. | assumption].
Qed.

Lemma struct_unpack_returned (bo : ByteOrder) (fmt : list FormatCode)
    (bs : list byte) (vs : list PyValue) :
  struct_unpack bo fmt bs = Returned vs ->
  length bs = calcsize fmt /\ vs = unpack_fields bo fmt bs.
Proof.
  unfold struct_unpack. destruct (Nat.eqb_spec (length bs) (calcsize fmt));
    [|discriminate]. intros H. injection H as <-. split; [assumption | reflexivity].
Qed.

Ltac invert_cls H :=
  repeat match type of H with
  | match ?x with _ => _ end = Returned _ => destruct x; try discriminate H
  end.

Lemma Tag_cls_inj (d d' : list PyValue) (t : Tag.t) :
  Tag.cls d = Returned t -> Tag.cls d' = Returned t -> d = d'.
Proof.
  unfold Tag.cls. intros H H'. invert_cls H. invert_cls H'.
  injection H as <-. injection H' as -> -> -> -> -> -> -> -> -> ->. reflexivity.
Qed.

Lemma FileHeader_cls_agree (d d' : list PyValue) (h : FileHeader.t) :
  FileHeader.cls d = Returned h -> FileHeader.cls d' = Returned h ->
  exists (x x' : list byte) (rest : list PyValue),
    d = PyBytes x :: rest /\ d' = PyBytes x' :: rest
    /\ c_char_array_value x = c_char_array_value x'.
Proof.
  unfold FileHeader.cls. intros H H'. invert_cls H. invert_cls H'.
  injection H as <-.
  injection H' as E -> -> -> -> -> -> -> -> -> -> -> -> -> ->.
  eexists. eexists. eexists. split; [reflexivity|]. split; [reflexivity|].
  symmetry. exact E.
Qed.

Lemma create_from_bytes_returned {T : Type} (fields : list (string * CType))
    (cls : list PyValue -> result T) (bs : list byte) (x : T) :
  create_from_bytes fields cls bs = Returned x ->
  length bs = calcsize (struct_format fields)
  /\ cls (unpack_fields LittleEndianHost (struct_format fields) bs) = Returned x.
Proof.
  unfold create_from_bytes. intros H.
  destruct (struct_unpack LittleEndianHost (struct_format fields) bs) as [vs|e] eqn:E;
    [|discriminate H].
  apply struct_unpack_returned in E. destruct E as [Hlen ->].
  split; [assumption | exact H].
Qed.

(** X8. Parsing a tag loses nothing: two byte blocks from which
    [Tag.create_from_bytes] builds the same [Tag] are the same block. *)
Theorem Tag_create_from_bytes_injective (a b : list byte) (t : Tag.t) :
  Tag.create_from_bytes a = Returned t ->
  Tag.create_from_bytes b = Returned t ->
  a = b.
Proof.
  intros Ha Hb.
  apply create_from_bytes_returned in Ha. destruct Ha as [La Ca].
  apply create_from_bytes_returned in Hb. destruct Hb as [Lb Cb].
  apply (unpack_fields_inj (struct_format Tag._fields_)); try assumption.
  exact (Tag_cls_inj _ _ t Ca Cb).
Qed.

Lemma Tag_create_from_bytes_injective_witness : sample_tag = sample_tag.
Proof.
  apply (Tag_create_from_bytes_injective sample_tag sample_tag
           (Tag.mk (ascii_bytes "T") (ascii_bytes "B") (ascii_bytes "G")
                   1 0x40 1 1 2 0 9));
    vm_compute; reflexivity.
Defined.

(** X9. Parsing a header loses nothing but what follows a NUL in the
    signature: two byte blocks from which [FileHeader.create_from_bytes]
    builds the same [FileHeader] are equal from offset 9 on, and their
    first 9 bytes agree up to the first NUL. *)
Theorem FileHeader_create_from_bytes_agree (a b : list byte) (h : FileHeader.t) :
  FileHeader.create_from_bytes a = Returned h ->
  FileHeader.create_from_bytes b = Returned h ->
  skipn 9 a = skipn 9 b
  /\ c_char_array_value (firstn 9 a) = c_char_array_value (firstn 9 b).
Proof.
  intros Ha Hb.
  apply create_from_bytes_returned in Ha. destruct Ha as [La Ca].
  apply create_from_bytes_returned in Hb. destruct Hb as [Lb Cb].
  change (struct_format FileHeader._fields_)
    with (Fmt_s 9 :: List.tl (struct_format FileHeader._fields_)) in La, Ca, Lb, Cb.
  remember (List.tl (struct_format FileHeader._fields_)) as rest eqn:Erest.
  cbn [unpack_fields unpack_code code_size] in Ca, Cb.
  cbn [calcsize fold_right code_size] in La, Lb. fold (calcsize rest) in La, Lb.
  destruct (FileHeader_cls_agree _ _ h Ca Cb) as (x & x' & tl & Ea & Eb & Ex).
  assert (Xa : firstn 9 a = x) by congruence.
  assert (Xb : firstn 9 b = x') by congruence.
  assert (Ta : unpack_fields LittleEndianHost rest (skipn 9 a) = tl) by congruence.
  assert (Tb : unpack_fields LittleEndianHost rest (skipn 9 b) = tl) by congruence.
  split; [|rewrite Xa, Xb; exact Ex].
  apply (unpack_fields_inj rest).
  - rewrite length_skipn, La. lia.
  - rewrite length_skipn, Lb. lia.
  - congruence.
Qed.

Lemma FileHeader_create_from_bytes_agree_witness :
  skipn 9 sample_header = skipn 9 sample_header
  /\ c_char_array_value (firstn 9 sample_header)
     = c_char_array_value (firstn 9 sample_header).
Proof.
  apply (FileHeader_create_from_bytes_agree sample_header sample_header
           (FileHeader.mk (ascii_bytes "OSKARBIN") 2 1 8 4 8 4 8
              0x00020001 0 0 0 0 0 0));
    vm_compute; reflexivity.
Defined.

(** Two different blocks with one header: what follows the NUL of the
    signature is not kept. *)
Example FileHeader_create_from_bytes_lossy :
  ascii_bytes "AB" ++ [x00] ++ ascii_bytes "CDEFGH" ++ repeat x00 55
    <> ascii_bytes "AB" ++ [x00] ++ ascii_bytes "XXXXXX" ++ repeat x00 55
  /\ FileHeader.create_from_bytes
       (ascii_bytes "AB" ++ [x00] ++ ascii_bytes "CDEFGH" ++ repeat x00 55)
     = FileHeader.create_from_bytes
         (ascii_bytes "AB" ++ [x00] ++ ascii_bytes "XXXXXX" ++ repeat x00 55)
  /\ FileHeader.create_from_bytes
       (ascii_bytes "AB" ++ [x00] ++ ascii_bytes "CDEFGH" ++ repeat x00 55)
     = Returned (FileHeader.mk (ascii_bytes "AB") 0 0 0 0 0 0 0 0 0 0 0 0 0 0).
Proof.
  split; [vm_compute; discriminate|]. split; vm_compute; reflexivity.
Qed.

(** ** Tag: layout, sizes and field ranges *)

Lemma Tag_create_from_bytes_fields (block : list byte) :
  length block = 20%nat ->
  Tag.create_from_bytes block
  = Returned (Tag.mk
      (slice 0 1 block) (slice 1 2 block) (slice 2 3 block)
      (le_uint (slice 3 4 block)) (le_uint (slice 4 5 block))
      (le_uint (slice 5 6 block)) (le_uint (slice 6 7 block))
      (le_uint (slice 7 8 block)) (le_uint (slice 8 12 block))
      (le_uint (slice 12 20 block))).
Proof.
  intros Hlen. unfold Tag.create_from_bytes, create_from_bytes, struct_unpack.
  rewrite Hlen.
  change (Nat.eqb 20 (calcsize (struct_format Tag._fields_))) with true.
  cbn [bind struct_format map Tag._fields_ field_format snd ctype_type_code
       ctype_size Nat.eqb unpack_fields unpack_code code_size read_uint Tag.cls].
  rewrite !skipn_skipn. cbn [Nat.add].
  rewrite !slice_as_skipn. reflexivity.
Qed.

Lemma Tag_create_from_bytes_wrong_size (block : list byte) :
  length block <> 20%nat -> Tag.create_from_bytes block = Raised StructError.
Proof.
  intros Hlen. unfold Tag.create_from_bytes, create_from_bytes, struct_unpack.
  change (calcsize (struct_format Tag._fields_)) with 20%nat.
  destruct (Nat.eqb_spec (length block) 20); [contradiction | reflexivity].
Qed.

(** X10. The layout of a tag: from a block of 20 bytes,
    [Tag.create_from_bytes] takes the three marker bytes at offsets 0, 1,
    2, the five one-byte fields at offsets 3 to 7, [userIdx] as the
    unsigned little-endian value of bytes 8 to 11 and [payloadSize] as
    that of bytes 12 to 19. *)
Theorem Tag_create_from_bytes_layout (block : list byte) :
  length block = OskarBinaryReader.TAG_SIZE ->
  exists t : Tag.t,
    Tag.create_from_bytes block = Returned t
    /\ Tag.t_ t = slice 0 1 block
    /\ Tag.AorB t = slice 1 2 block
    /\ Tag.g t = slice 2 3 block
    /\ Tag.payloadElementSize t = byte_val (nth 3 block x00)
    /\ Tag.chunkFlags t = byte_val (nth 4 block x00)
    /\ Tag.payloadDataType t = byte_val (nth 5 block x00)
    /\ Tag.groupID t = byte_val (nth 6 block x00)
    /\ Tag.tagID t = byte_val (nth 7 block x00)
    /\ Tag.userIdx t = le_uint (slice 8 12 block)
    /\ Tag.payloadSize t = le_uint (slice 12 20 block).
Proof.
  intros Hlen. eexists. split; [apply Tag_create_from_bytes_fields; exact Hlen|].
  do 21 (destruct block as [|? block]; try discriminate Hlen).
  cbn. repeat split; lia.
Qed.

Lemma Tag_create_from_bytes_layout_witness :
  exists t : Tag.t,
    Tag.create_from_bytes sample_tag = Returned t
    /\ Tag.t_ t = slice 0 1 sample_tag
    /\ Tag.AorB t = slice 1 2 sample_tag
    /\ Tag.g t = slice 2 3 sample_tag
    /\ Tag.payloadElementSize t = byte_val (nth 3 sample_tag x00)
    /\ Tag.chunkFlags t = byte_val (nth 4 sample_tag x00)
    /\ Tag.payloadDataType t = byte_val (nth 5 sample_tag x00)
    /\ Tag.groupID t = byte_val (nth 6 sample_tag x00)
    /\ Tag.tagID t = byte_val (nth 7 sample_tag x00)
    /\ Tag.userIdx t = le_uint (slice 8 12 sample_tag)
    /\ Tag.payloadSize t = le_uint (slice 12 20 sample_tag).
Proof. apply (Tag_create_from_bytes_layout sample_tag). reflexivity. Defined.

(** X11. [create_from_bytes] fails with [struct.error] exactly on a block
    whose length is not that of the format, 20 bytes for a [Tag] and 64
    for a [FileHeader]; on a block of the right length it raises
    nothing. *)
Theorem create_from_bytes_size_error (block : list byte) :
  (Tag.create_from_bytes block = Raised StructError
   <-> length block <> OskarBinaryReader.TAG_SIZE)
  /\ (FileHeader.create_from_bytes block = Raised StructError
      <-> length block <> OskarBinaryReader.HEADER_SIZE)
  /\ (forall e, Tag.create_from_bytes block = Raised e -> e = StructError)
  /\ (forall e, FileHeader.create_from_bytes block = Raised e -> e = StructError).
Proof.
  unfold OskarBinaryReader.TAG_SIZE, OskarBinaryReader.HEADER_SIZE.
  assert (HT : (Tag.create_from_bytes block = Raised StructError
                <-> length block <> 20%nat)
               /\ (forall e, Tag.create_from_bytes block = Raised e -> e = StructError)).
  { destruct (Nat.eq_dec (length block) 20) as [H20|H20].
    - rewrite (Tag_create_from_bytes_fields block H20).
      split; [split; [discriminate | contradiction] | discriminate].
    - rewrite (Tag_create_from_bytes_wrong_size block H20).
      split; [split; [intros _; exact H20 | reflexivity] | congruence]. }
  assert (HF : (FileHeader.create_from_bytes block = Raised StructError
                <-> length block <> 64%nat)
               /\ (forall e, FileHeader.create_from_bytes block = Raised e ->
                      e = StructError)).
  { destruct (Nat.eq_dec (length block) 64) as [H64|H64].
    - rewrite (FileHeader_create_from_bytes_fields block H64).
      split; [split; [discriminate | contradiction] | discriminate].
    - rewrite (create_from_bytes_wrong_size block H64).
      split; [split; [intros _; exact H64 | reflexivity] | congruence]. }
  tauto.
Qed.

(** X12. Every field of a parsed tag lies in the range of its declared
    width: the three markers are single bytes, the five one-byte fields
    are below 256, [userIdx] is below 2^32 and [payloadSize] below
    2^64. *)
Theorem Tag_create_from_bytes_ranges (block : list byte) (t : Tag.t) :
  Tag.create_from_bytes block = Returned t ->
  length (Tag.t_ t) = 1%nat /\ length (Tag.AorB t) = 1%nat
  /\ length (Tag.g t) = 1%nat
  /\ 0 <= Tag.payloadElementSize t < 256
  /\ 0 <= Tag.chunkFlags t < 256
  /\ 0 <= Tag.payloadDataType t < 256
  /\ 0 <= Tag.groupID t < 256
  /\ 0 <= Tag.tagID t < 256
  /\ 0 <= Tag.userIdx t < 2 ^ 32
  /\ 0 <= Tag.payloadSize t < 2 ^ 64.
Proof.
  intros H.
  destruct (Nat.eq_dec (length block) 20) as [Hlen|Hlen];
    [|rewrite Tag_create_from_bytes_wrong_size in H by assumption; discriminate].
  rewrite Tag_create_from_bytes_fields in H by assumption. injection H as <-.
  cbn [Tag.t_ Tag.AorB Tag.g Tag.payloadElementSize Tag.chunkFlags
       Tag.payloadDataType Tag.groupID Tag.tagID Tag.userIdx Tag.payloadSize].
  repeat match goal with
  | |- _ <= le_uint (slice ?a ?b block) < _ =>
      let R := fresh "R" in
      pose proof (le_uint_range (slice a b block)) as R;
      rewrite slice_length in R by lia;
      let n := eval vm_compute in (256 ^ Z.of_nat (b - a)) in
      change (256 ^ Z.of_nat (b - a)) with n in R; lia
  | |- length (slice ?a ?b block) = _ => rewrite slice_length by lia; reflexivity
  | |- _ /\ _ => split
  end.
Qed.

Lemma Tag_create_from_bytes_ranges_witness :
  length (ascii_bytes "T") = 1%nat /\ length (ascii_bytes "B") = 1%nat
  /\ length (ascii_bytes "G") = 1%nat
  /\ 0 <= 1 < 256 /\ 0 <= 0x40 < 256 /\ 0 <= 1 < 256 /\ 0 <= 1 < 256
  /\ 0 <= 2 < 256 /\ 0 <= 0 < 2 ^ 32 /\ 0 <= 9 < 2 ^ 64.
Proof.
  apply (Tag_create_from_bytes_ranges sample_tag
           (Tag.mk (ascii_bytes "T") (ascii_bytes "B") (ascii_bytes "G")
                   1 0x40 1 1 2 0 9)).
  vm_compute. reflexivity.
Defined.

(** X13. For every tag parsed from a block, on every interpreter,
    [isSane] holds exactly when one and only one of the bits 0 to 3 of
    the byte at offset 5 is set and its bits 4 and 7 are clear. *)
Theorem parsed_tag_isSane (rt : Runtime) (block : list byte) (t : Tag.t) :
  Tag.create_from_bytes block = Returned t ->
  Tag.isSane rt t = one_base_bit (byte_val (nth 5 block x00)).
Proof.
  intros H.
  destruct (Nat.eq_dec (length block) 20) as [Hlen|Hlen];
    [|rewrite Tag_create_from_bytes_wrong_size in H by assumption; discriminate].
  rewrite Tag_create_from_bytes_fields in H by assumption. injection H as <-.
  rewrite isSane_sane_byte. cbn [Tag.payloadDataType].
  do 21 (destruct block as [|? block]; try discriminate Hlen).
  cbn [slice skipn firstn Nat.sub le_uint fold_right nth].
  replace (byte_val b4 + 256 * 0) with (byte_val b4) by lia.
  apply sane_byte_one_base_bit. apply byte_val_range.
Qed.

Lemma parsed_tag_isSane_witness :
  Tag.isSane cpython38
    (Tag.mk (ascii_bytes "T") (ascii_bytes "B") (ascii_bytes "G") 1 0x40 1 1 2 0 9)
  = one_base_bit (byte_val (nth 5 sample_tag x00)).
Proof.
  apply (parsed_tag_isSane cpython38 sample_tag). vm_compute. reflexivity.
Defined.

(** ** The integrity checker: short input and the trailer it accepts *)

Lemma le_bytes_length (n : nat) (z : Z) : length (le_bytes n z) = n.
Proof. revert z. induction n as [|n IH]; intros z; cbn; [|rewrite IH]; reflexivity. Qed.

Lemma byte_val_of_Z_mod (z : Z) : byte_val (byte_of_Z z) = z mod 256.
Proof.
  assert (E : byte_of_Z z = byte_of_Z (z mod 256)).
  { unfold byte_of_Z. rewrite Z.mod_mod by lia. reflexivity. }
  rewrite E. apply byte_val_of_Z. apply Z.mod_pos_bound. lia.
Qed.

Lemma le_uint_le_bytes (n : nat) :
  forall z, 0 <= z < 256 ^ Z.of_nat n -> le_uint (le_bytes n z) = z.
Proof.
  induction n as [|n IH]; intros z Hz.
  - cbn in *. lia.
  - rewrite Nat2Z.inj_succ, Z.pow_succ_r in Hz by lia.
    cbn [le_bytes le_uint fold_right]. fold (le_uint (le_bytes n (z / 256))).
    rewrite IH by divmod_lia. rewrite byte_val_of_Z_mod. divmod_lia.
Qed.

Lemma le_bytes_le_uint (l : list byte) : le_bytes (length l) (le_uint l) = l.
Proof.
  apply le_uint_inj.
  - apply le_bytes_length.
  - apply le_uint_le_bytes. apply le_uint_range.
Qed.

Lemma slice_upto_neg_all {A : Type} (l1 l2 : list A) :
  slice_upto_neg (length l2) (l1 ++ l2) = l1.
Proof.
  rewrite slice_upto_neg_app by lia. unfold slice_upto_neg.
  rewrite Nat.sub_diag. cbn. apply app_nil_r.
Qed.

Lemma slice_from_neg_all {A : Type} (l1 l2 : list A) :
  slice_from_neg (length l2) (l1 ++ l2) = l2.
Proof.
  rewrite slice_from_neg_app by lia. unfold slice_from_neg.
  rewrite Nat.sub_diag. reflexivity.
Qed.

Lemma checkCRC_result (rt : Runtime) (rawTag rawPayload : list byte) :
  (4 <= length (rawTag ++ rawPayload))%nat ->
  OskarBinaryReader.checkCRC rt true rawTag rawPayload
  = Returned (PyTuple
      [PyBool (as_signed 32
                 (read_uint (byteorder rt) (slice_from_neg 4 (rawTag ++ rawPayload)))
               =? crc32c (slice_upto_neg 4 (rawTag ++ rawPayload)));
       PyBytes (slice_upto_neg 4 rawPayload)]).
Proof.
  intros Hlen. unfold OskarBinaryReader.checkCRC, OskarBinaryReader._readCRCFromData.
  cbn [negb]. rewrite struct_unpack_i by (apply slice_from_neg_length; assumption).
  reflexivity.
Qed.

Lemma checkCRC_too_short (rt : Runtime) (rawTag rawPayload : list byte) :
  (length (rawTag ++ rawPayload) < 4)%nat ->
  OskarBinaryReader.checkCRC rt true rawTag rawPayload = Raised StructError.
Proof.
  intros Hlen. unfold OskarBinaryReader.checkCRC, OskarBinaryReader._readCRCFromData,
    struct_unpack. cbn [negb].
  assert (E : Nat.eqb (length (slice_from_neg 4 (rawTag ++ rawPayload)))
                      (calcsize [Fmt_i]) = false).
  { apply Nat.eqb_neq. unfold slice_from_neg. rewrite length_skipn. cbn. lia. }
  rewrite E. reflexivity.
Qed.

(** X14. With a checksum expected, [checkCRC] fails exactly when the tag
    and the payload together have fewer than 4 bytes, and then with
    [struct.error]; in every other case, on every host, it returns the
    pair of a flag and the payload cut by 4 bytes, which is empty when
    the payload has 4 bytes or fewer. *)
Theorem checkCRC_short_input (rt : Runtime) (rawTag rawPayload : list byte) :
  (OskarBinaryReader.checkCRC rt true rawTag rawPayload = Raised StructError
   <-> (length rawTag + length rawPayload < 4)%nat)
  /\ (forall e, OskarBinaryReader.checkCRC rt true rawTag rawPayload = Raised e ->
        e = StructError)
  /\ (forall v, OskarBinaryReader.checkCRC rt true rawTag rawPayload = Returned v ->
        exists ok : bool,
          v = PyTuple [PyBool ok; PyBytes (slice_upto_neg 4 rawPayload)]
          /\ length (slice_upto_neg 4 rawPayload) = (length rawPayload - 4)%nat).
Proof.
  destruct (Nat.lt_ge_cases (length (rawTag ++ rawPayload)) 4) as [Hs|Hl].
  - rewrite checkCRC_too_short by assumption. rewrite length_app in Hs.
    split; [tauto|]. split; [congruence | discriminate].
  - rewrite checkCRC_result by assumption. rewrite length_app in Hl.
    split; [split; [discriminate | lia]|]. split; [discriminate|].
    intros v Hv. injection Hv as <-. eexists. split; [reflexivity|].
    unfold slice_upto_neg. rewrite length_firstn. lia.
Qed.

(** X15. Which trailer passes. For a tag, a body and a 4-byte trailer,
    the check returns the body with a flag that is true exactly when the
    trailer, read in the byte order of the host, is the little-endian
    form of the CRC32C of tag and body and that CRC32C is below 2^31; a
    record whose CRC32C is 2^31 or more is rejected whatever its trailer,
    the stored word being read as a signed integer. *)
Theorem checkCRC_accepts_iff (rt : Runtime) (rawTag body trailer : list byte) :
  length trailer = 4%nat ->
  exists ok : bool,
    OskarBinaryReader.checkCRC rt true rawTag (body ++ trailer)
    = Returned (PyTuple [PyBool ok; PyBytes body])
    /\ (ok = true <->
        (match byteorder rt with
         | LittleEndianHost => trailer
         | BigEndianHost => rev trailer
         end) = le_bytes 4 (crc32c (rawTag ++ body))
        /\ crc32c (rawTag ++ body) < 2 ^ 31).
Proof.
  intros Hlen. eexists. split.
  - rewrite checkCRC_result by (rewrite !length_app; lia).
    rewrite app_assoc, <- Hlen, slice_from_neg_all, !slice_upto_neg_all.
    reflexivity.
  - set (word := match byteorder rt with
                 | LittleEndianHost => trailer
                 | BigEndianHost => rev trailer
                 end).
    assert (Hw : read_uint (byteorder rt) trailer = le_uint word)
      by (subst word; destruct (byteorder rt); reflexivity).
    assert (Hwl : length word = 4%nat)
      by (subst word; destruct (byteorder rt); rewrite ?length_rev; assumption).
    rewrite Hw.
    pose proof (crc32c_range (rawTag ++ body)) as Hc.
    pose proof (le_uint_range word) as Hr. rewrite Hwl in Hr.
    change (256 ^ Z.of_nat 4) with (2 ^ 32) in Hr.
    rewrite Z.eqb_eq. split.
    + intros Heq.
      assert (Hsmall : le_uint word < 2 ^ 31).
      { destruct (Z.lt_ge_cases (le_uint word) (2 ^ 31)); [assumption|].
        rewrite as_signed_large in Heq by lia. lia. }
      rewrite as_signed_small in Heq by lia.
      split; [|lia]. rewrite <- Heq, <- Hwl. symmetry. apply le_bytes_le_uint.
    + intros [Hword Hsmall]. rewrite Hword.
      rewrite le_uint_le_bytes by (change (256 ^ Z.of_nat 4) with (2 ^ 32); lia).
      apply as_signed_small. lia.
Qed.

Lemma checkCRC_accepts_iff_witness :
  exists ok : bool,
    OskarBinaryReader.checkCRC cpython310 true sample_tag
      (ascii_bytes "abcde" ++ map byte_of_Z [0xFF; 0x40; 0xDF; 0x64])
    = Returned (PyTuple [PyBool ok; PyBytes (ascii_bytes "abcde")])
    /\ (ok = true <->
        (match byteorder cpython310 with
         | LittleEndianHost => map byte_of_Z [0xFF; 0x40; 0xDF; 0x64]
         | BigEndianHost => rev (map byte_of_Z [0xFF; 0x40; 0xDF; 0x64])
         end) = le_bytes 4 (crc32c (sample_tag ++ ascii_bytes "abcde"))
        /\ crc32c (sample_tag ++ ascii_bytes "abcde") < 2 ^ 31).
Proof.
  apply (checkCRC_accepts_iff cpython310 sample_tag (ascii_bytes "abcde")
           (map byte_of_Z [0xFF; 0x40; 0xDF; 0x64])).
  reflexivity.
Defined.

(** ** The payload decoder: what it raises and what it keeps *)

(** X16. The payload decoder raises nothing but the codec's
    [UnicodeDecodeError], and only for a tag with the char bit set and a
    payload that is not valid UTF-8. *)
Theorem interpretePayloadData_only_decode_error
    (payload : list byte) (tag : Tag.t) (e : PyExn) :
  OskarBinaryReader.interpretePayloadData payload tag = Raised e ->
  e = UnicodeDecodeError /\ Tag.isCharType tag = true /\ ~ valid_utf8 payload.
Proof.
  unfold OskarBinaryReader.interpretePayloadData, OskarBinaryReader.interpreteString,
    OskarBinaryReader.interpreteNumbers.
  destruct (Tag.isCharType tag); [|discriminate].
  destruct (utf8_decode payload) as [text|] eqn:E; [discriminate|].
  intros H. injection H as <-. split; [reflexivity|]. split; [reflexivity|].
  apply utf8_decode_none_iff. exact E.
Qed.

Lemma interpretePayloadData_only_decode_error_witness :
  UnicodeDecodeError = UnicodeDecodeError
  /\ Tag.isCharType (tag_of_type 0x01) = true
  /\ ~ valid_utf8 (map byte_of_Z [0xC0; 0x80]).
Proof.
  apply (interpretePayloadData_only_decode_error (map byte_of_Z [0xC0; 0x80])
           (tag_of_type 0x01) UnicodeDecodeError).
  reflexivity.
Defined.

(** X17. A payload of ASCII bytes (all below 0x80) decodes to the text
    made of the same values, one code point per byte. *)
Theorem interpreteString_ascii (payload : list byte) :
  Forall (fun b => byte_val b < 0x80) payload ->
  OskarBinaryReader.interpreteString payload
  = Returned (PyStr (map byte_val payload)).
Proof.
  intros Hall. unfold OskarBinaryReader.interpreteString.
  assert (E : utf8_decode payload = Some (map byte_val payload)).
  { induction Hall as [|b l Hb _ IH]; [reflexivity|].
    rewrite utf8_decode_1 by (apply Z.ltb_lt; exact Hb). rewrite IH. reflexivity. }
  rewrite E. reflexivity.
Qed.

Lemma interpreteString_ascii_witness :
  OskarBinaryReader.interpreteString (ascii_bytes "abcde")
  = Returned (PyStr (map byte_val (ascii_bytes "abcde"))).
Proof.
  apply (interpreteString_ascii (ascii_bytes "abcde")).
  repeat (apply Forall_cons; [vm_compute; reflexivity|]). apply Forall_nil.
Defined.

Lemma utf8_encode_cp_length (cp : Z) :
  (1 <= length (utf8_encode_cp cp) <= 4)%nat.
Proof.
  unfold utf8_encode_cp.
  destruct (cp <? 0x80); [cbn; lia|].
  destruct (cp <? 0x800); [cbn; lia|].
  destruct (cp <? 0x10000); cbn; lia.
Qed.

Lemma utf8_encode_length (text : list Z) :
  (length text <= length (utf8_encode text) <= 4 * length text)%nat.
Proof.
  induction text as [|cp text IH]; [cbn; lia|].
  rewrite utf8_encode_cons, length_app. cbn [length].
  pose proof (utf8_encode_cp_length cp). lia.
Qed.

(** X18. A decoded text has at most as many code points as the payload
    has bytes, and at least a quarter as many; and the payload is the
    UTF-8 encoding of the text, so that two payloads that decode to the
    same text are equal. *)
Theorem interpreteString_returned (payload : list byte) (text : list Z) :
  OskarBinaryReader.interpreteString payload = Returned (PyStr text) ->
  (length text <= length payload <= 4 * length text)%nat
  /\ Forall is_scalar text
  /\ utf8_encode text = payload
  /\ (forall payload',
        OskarBinaryReader.interpreteString payload' = Returned (PyStr text) ->
        payload' = payload).
Proof.
  assert (Hinv : forall p, OskarBinaryReader.interpreteString p = Returned (PyStr text) ->
                   Forall is_scalar text /\ p = utf8_encode text).
  { intros p. unfold OskarBinaryReader.interpreteString.
    destruct (utf8_decode p) as [t|] eqn:E; [|discriminate].
    intros H. injection H as ->. apply utf8_decode_sound. exact E. }
  intros H. destruct (Hinv payload H) as [Hs ->].
  split; [apply utf8_encode_length|]. split; [assumption|]. split; [reflexivity|].
  intros p' H'. apply (Hinv p' H').
Qed.

Lemma interpreteString_returned_witness :
  (length text_euro <= length payload_euro <= 4 * length text_euro)%nat
  /\ Forall is_scalar text_euro
  /\ utf8_encode text_euro = payload_euro
  /\ (forall payload',
        OskarBinaryReader.interpreteString payload' = Returned (PyStr text_euro) ->
        payload' = payload_euro).
Proof.
  apply (interpreteString_returned payload_euro text_euro). reflexivity.
Defined.

(** ** The file scanner: outcome *)

(** X19. [readBinaryFile] never ends normally: on an empty file the
    mapping is refused with a [ValueError], and on every other file the
    header is built over a read-only slice of the mapping, which
    [from_buffer] refuses with a [TypeError], whatever the file holds. *)
Theorem readBinaryFile_never_returns (content : list byte) :
  (forall v, OskarBinaryReader.readBinaryFile content <> Returned v)
  /\ (content = [] -> OskarBinaryReader.readBinaryFile content = Raised ValueError)
  /\ (content <> [] -> OskarBinaryReader.readBinaryFile content = Raised TypeError).
Proof.
  rewrite readBinaryFile_outcome. destruct content as [|b c]; cbn.
  - split; [discriminate|]. split; [reflexivity | contradiction].
  - split; [discriminate|]. split; [discriminate | reflexivity].
Qed.

(** ** The format built from the fields *)



(** ** FileHeader: layout and the reserved bytes *)

(** X21. The layout of a header: whenever [FileHeader.create_from_bytes]
    returns a header, the block has 64 bytes, [desc] holds those of its
    first 9 bytes that come before the first NUL (at most 9, and none of
    them a NUL), the seven one-byte fields are the bytes at offsets 9 to
    15 and [oskarVersion] is the unsigned little-endian value of bytes 16
    to 19, below 2^32. *)
Theorem FileHeader_create_from_bytes_layout (block : list byte) (h : FileHeader.t) :
  FileHeader.create_from_bytes block = Returned h ->
  length block = OskarBinaryReader.HEADER_SIZE
  /\ FileHeader.desc h = c_char_array_value (firstn 9 block)
  /\ (length (FileHeader.desc h) <= 9)%nat
  /\ ~ In x00 (FileHeader.desc h)
  /\ [FileHeader.ver h; FileHeader.littleEndinan h; FileHeader.voidptrSize h;
      FileHeader.intSize h; FileHeader.longSize h; FileHeader.floatSize h;
      FileHeader.doubleSize h]
     = map byte_val (slice 9 16 block)
  /\ FileHeader.oskarVersion h = le_uint (slice 16 20 block)
  /\ 0 <= FileHeader.oskarVersion h < 2 ^ 32.
Proof.
  intros H.
  destruct (Nat.eq_dec (length block) 64) as [Hlen|Hlen];
    [|rewrite create_from_bytes_wrong_size in H by assumption; discriminate].
  rewrite FileHeader_create_from_bytes_fields in H by assumption. injection H as <-.
  split; [exact Hlen|]. split; [reflexivity|].
  cbn [FileHeader.desc FileHeader.ver FileHeader.littleEndinan
       FileHeader.voidptrSize FileHeader.intSize FileHeader.longSize
       FileHeader.floatSize FileHeader.doubleSize FileHeader.oskarVersion].
  split.
  { pose proof (c_char_array_value_length (slice 0 9 block)) as L.
    rewrite slice_length in L by lia. exact L. }
  split; [apply c_char_array_value_no_nul|].
  split; [|split; [reflexivity|]].
  - do 17 (destruct block as [|? block]; try discriminate Hlen).
    cbn [slice skipn firstn Nat.sub le_uint fold_right map].
    repeat f_equal; lia.
  - pose proof (le_uint_range (slice 16 20 block)) as R.
    rewrite slice_length in R by lia.
    change (256 ^ Z.of_nat (20 - 16)) with (2 ^ 32) in R. exact R.
Qed.

Lemma FileHeader_create_from_bytes_layout_witness :
  length sample_header = OskarBinaryReader.HEADER_SIZE
  /\ ascii_bytes "OSKARBIN" = c_char_array_value (firstn 9 sample_header)
  /\ (length (ascii_bytes "OSKARBIN") <= 9)%nat
  /\ ~ In x00 (ascii_bytes "OSKARBIN")
  /\ [2; 1; 8; 4; 8; 4; 8] = map byte_val (slice 9 16 sample_header)
  /\ 0x00020001 = le_uint (slice 16 20 sample_header)
  /\ 0 <= 0x00020001 < 2 ^ 32.
Proof.
  apply (FileHeader_create_from_bytes_layout sample_header
           (FileHeader.mk (ascii_bytes "OSKARBIN") 2 1 8 4 8 4 8
              0x00020001 0 0 0 0 0 0)).
  vm_compute. reflexivity.
Defined.

Lemma le_uint_zero (l : list byte) :
  le_uint l = 0 <-> l = repeat x00 (length l).
Proof.
  assert (Hz : forall n, le_uint (repeat x00 n) = 0).
  { induction n as [|n IH]; [reflexivity|].
    cbn [repeat le_uint fold_right]. fold (le_uint (repeat x00 n)). rewrite IH.
    reflexivity. }
  split.
  - intros H. apply le_uint_inj; [rewrite repeat_length; reflexivity|].
    rewrite Hz. exact H.
  - intros ->. apply Hz.
Qed.

Lemma slice_split {A : Type} (lo mid hi : nat) (l : list A) :
  (lo <= mid)%nat -> (mid <= hi)%nat ->
  slice lo hi l = slice lo mid l ++ slice mid hi l.
Proof.
  intros H1 H2. unfold slice.
  replace (hi - lo)%nat with ((mid - lo) + (hi - mid))%nat by lia.
  rewrite <- (firstn_skipn (mid - lo) (skipn lo l)) at 1.
  rewrite firstn_app, skipn_skipn.
  replace (mid - lo + lo)%nat with mid by lia.
  rewrite firstn_firstn.
  replace (Nat.min (mid - lo + (hi - mid)) (mid - lo)) with (mid - lo)%nat by lia.
  f_equal. rewrite length_firstn, length_skipn.
  destruct (Nat.le_ge_cases (mid - lo) (length l - lo)) as [Hle|Hge].
  - rewrite Nat.min_l by lia. f_equal. lia.
  - rewrite !firstn_all2; [reflexivity | rewrite length_skipn; lia ..].
Qed.

Lemma app_inj_length {A : Type} (a : list A) :
  forall (b c d : list A),
    length a = length c -> a ++ b = c ++ d -> a = c /\ b = d.
Proof.
  induction a as [|x a IH]; intros b [|y c] d Hlen H; try discriminate Hlen.
  - split; [reflexivity | exact H].
  - cbn in H. injection H as -> H. cbn in Hlen.
    destruct (IH b c d ltac:(lia) H) as [-> ->]. split; reflexivity.
Qed.

Lemma repeat_app_eq {A : Type} (x : A) (l1 l2 : list A) :
  l1 ++ l2 = repeat x (length l1 + length l2) <->
  l1 = repeat x (length l1) /\ l2 = repeat x (length l2).
Proof.
  rewrite repeat_app. split.
  - intros H. apply app_inj_length in H; [exact H|].
    rewrite repeat_length. reflexivity.
  - intros [<- <-]. reflexivity.
Qed.

(** X22. The 44 reserved bytes of a header block are all zero exactly
    when the six reserved fields of the parsed header are all 0: a caller
    can make the check the parser leaves out on the fields alone. *)
Theorem reserved_fields_zero_iff (block : list byte) (h : FileHeader.t) :
  FileHeader.create_from_bytes block = Returned h ->
  FileHeader.reserved_bytes block = repeat x00 44
  <-> (FileHeader.reserved0 h = 0 /\ FileHeader.reserved1 h = 0
       /\ FileHeader.reserved2 h = 0 /\ FileHeader.reserved3 h = 0
       /\ FileHeader.reserved4 h = 0 /\ FileHeader.reserved5 h = 0).
Proof.
  intros H.
  destruct (Nat.eq_dec (length block) 64) as [Hlen|Hlen];
    [|rewrite create_from_bytes_wrong_size in H by assumption; discriminate].
  rewrite FileHeader_create_from_bytes_fields in H by assumption. injection H as <-.
  cbn [FileHeader.reserved0 FileHeader.reserved1 FileHeader.reserved2
       FileHeader.reserved3 FileHeader.reserved4 FileHeader.reserved5].
  unfold FileHeader.reserved_bytes.
  rewrite (slice_split 20 28 64), (slice_split 28 36 64), (slice_split 36 44 64),
          (slice_split 44 52 64), (slice_split 52 60 64) by lia.
  assert (L0 : length (slice 20 28 block) = 8%nat) by (rewrite slice_length; lia).
  assert (L1 : length (slice 28 36 block) = 8%nat) by (rewrite slice_length; lia).
  assert (L2 : length (slice 36 44 block) = 8%nat) by (rewrite slice_length; lia).
  assert (L3 : length (slice 44 52 block) = 8%nat) by (rewrite slice_length; lia).
  assert (L4 : length (slice 52 60 block) = 8%nat) by (rewrite slice_length; lia).
  assert (L5 : length (slice 60 64 block) = 4%nat) by (rewrite slice_length; lia).
  rewrite !le_uint_zero, L0, L1, L2, L3, L4, L5.
  change (repeat x00 44)
    with (repeat x00 8 ++ repeat x00 8 ++ repeat x00 8 ++ repeat x00 8
          ++ repeat x00 8 ++ repeat x00 4).
  split.
  - intros E.
    apply app_inj_length in E; [destruct E as [E0 E]|rewrite L0; reflexivity].
    apply app_inj_length in E; [destruct E as [E1 E]|rewrite L1; reflexivity].
    apply app_inj_length in E; [destruct E as [E2 E]|rewrite L2; reflexivity].
    apply app_inj_length in E; [destruct E as [E3 E]|rewrite L3; reflexivity].
    apply app_inj_length in E; [destruct E as [E4 E5]|rewrite L4; reflexivity].
    tauto.
  - intros (-> & -> & -> & -> & -> & ->). reflexivity.
Qed.

Lemma reserved_fields_zero_iff_witness :
  FileHeader.reserved_bytes sample_header = repeat x00 44
  <-> (0 = 0 /\ 0 = 0 /\ 0 = 0 /\ 0 = 0 /\ 0 = 0 /\ 0 = 0).
Proof.
  apply (reserved_fields_zero_iff sample_header
           (FileHeader.mk (ascii_bytes "OSKARBIN") 2 1 8 4 8 4 8
              0x00020001 0 0 0 0 0 0)).
  vm_compute. reflexivity.
Defined.

(** ** Tag: the modifiers and the sanity test *)

(** X23. Setting bits outside the base-type and reserved positions (the
    complex bit 5, the matrix bit 6, or both) never changes the verdict
    of [isSane]. *)
Theorem isSane_ignores_modifiers (rt : Runtime) (self other : Tag.t) (m : Z) :
  Z.land m 0x9F = 0 ->
  Tag.payloadDataType other = Z.lor (Tag.payloadDataType self) m ->
  Tag.isSane rt other = Tag.isSane rt self.
Proof.
  intros Hm Hpdt. unfold Tag.isSane. rewrite Hpdt.
  assert (H90 : Z.land m 0x90 = 0).
  { change 0x90 with (Z.land 0x9F 0x90). rewrite Z.land_assoc, Hm. reflexivity. }
  assert (H0F : Z.land m 0x0F = 0).
  { change 0x0F with (Z.land 0x9F 0x0F). rewrite Z.land_assoc, Hm. reflexivity. }
  rewrite !Z.land_lor_distr_l, H90, H0F, !Z.lor_0_r. reflexivity.
Qed.

Lemma isSane_ignores_modifiers_witness :
  Tag.isSane cpython38 (tag_of_type 0x68) = Tag.isSane cpython38 (tag_of_type 0x08).
Proof.
  apply (isSane_ignores_modifiers cpython38 (tag_of_type 0x08) (tag_of_type 0x68) 0x60);
    reflexivity.
Defined.
